(** * FileStream/server/stream_routes.py: the range-aware streaming routes

    A shallow embedding of the aiohttp routes of [stream_routes.py]:
    the CORS header table, the root, API and OPTIONS handlers, the
    [stream_handler] route (metadata resolution, [Range] handling,
    validation, header construction) and its [media_streamer] generator.

    Conventions of the embedding.
    - Python [int] is [Z].  Python [str] is [string]; header values and
      record strings are taken to be ASCII, so the decimal digits and
      blanks of [int()] and [strip()] are the ASCII ones, and [int()]
      accepts no digit outside [0-9].
    - A [dict] is a [gmap string _].
    - Awaited calls on the collaborators ([db.get_file],
      [bot.get_messages], [bot.stream_media]) are answered by an
      environment and leave an event in a log.
    - Exceptions are values of [exn]; [try]/[except] is a combinator of
      the handler monad. *)

From Stdlib Require Import ZArith Ascii String DecimalString DecimalZ Lia.
From stdpp Require Import gmap strings list.

Open Scope Z_scope.

(** ** Python strings *)

Module PyStr.

(** Blanks removed by [str.strip()]: TAB, LF, VT, FF, CR, FS, GS, RS, US
    and SPACE. *)
Definition is_space (c : ascii) : bool :=
  let n := N_of_ascii c in
  ((9 <=? n) && (n <=? 13) || (28 <=? n) && (n <=? 32))%N.

(** Blanks skipped by [int()] around the literal: TAB, LF, VT, FF, CR and
    SPACE only. *)
Definition is_int_space (c : ascii) : bool :=
  let n := N_of_ascii c in
  ((9 <=? n) && (n <=? 13) || (n =? 32))%N.

Definition is_digit (c : ascii) : bool :=
  let n := N_of_ascii c in ((48 <=? n) && (n <=? 57))%N.

Definition is_empty (s : string) : bool :=
  match s with EmptyString => true | String _ _ => false end.

Fixpoint lstrip_by (p : ascii -> bool) (s : string) : string :=
  match s with
  | EmptyString => EmptyString
  | String c r => if p c then lstrip_by p r else s
  end.

Fixpoint rstrip_by (p : ascii -> bool) (s : string) : string :=
  match s with
  | EmptyString => EmptyString
  | String c r =>
      let r' := rstrip_by p r in
      if p c && is_empty r' then EmptyString else String c r'
  end.

Definition strip_by (p : ascii -> bool) (s : string) : string :=
  rstrip_by p (lstrip_by p s).

(** [s.strip()] *)
Definition strip (s : string) : string := strip_by is_space s.

(** [s.strip(chars)] *)
Definition strip_chars (chars : string) (s : string) : string :=
  strip_by (fun c => bool_decide (c ∈ list_ascii_of_string chars)) s.

(** [s.replace(old, new)] for a non-empty [old]: occurrences are found
    left to right and do not overlap.  [skip] counts the characters of
    an occurrence still to be dropped. *)
Fixpoint replace_from (old new : string) (skip : nat) (s : string) : string :=
  match s with
  | EmptyString => EmptyString
  | String c r =>
      match skip with
      | S k => replace_from old new k r
      | O =>
          if String.prefix old s
          then new +:+ replace_from old new (String.length old - 1) r
          else String c (replace_from old new 0 r)
      end
  end.

Definition replace (old new s : string) : string := replace_from old new 0 s.

(** [s.split(sep)] for a one-character separator: never empty. *)
Fixpoint split (sep : ascii) (s : string) : list string :=
  match s with
  | EmptyString => [EmptyString]
  | String c r =>
      if Ascii.eqb c sep then EmptyString :: split sep r
      else match split sep r with
           | t :: ts => String c t :: ts
           | [] => [String c EmptyString]
           end
  end.

(** [sub in s] *)
Fixpoint contains (sub s : string) : bool :=
  String.prefix sub s ||
  match s with
  | EmptyString => false
  | String _ r => contains sub r
  end.

(** [str(n)] and the [{n}] of an f-string, for an [int]. *)
Definition of_Z (n : Z) : string := NilZero.string_of_int (Z.to_int n).

(** The digit part of an integer literal accepted by [int()]: decimal
    digits, with single underscores allowed between digits.  Returns the
    digits without the underscores. *)
Fixpoint digit_groups (after_digit : bool) (s : string) : option string :=
  match s with
  | EmptyString => if after_digit then Some EmptyString else None
  | String c r =>
      if is_digit c then String c <$> digit_groups true r
      else if Ascii.eqb c "_" then
        (if after_digit then digit_groups false r else None)
      else None
  end.

Definition int_literal (s : string) : option Z :=
  d ← digit_groups false s;
  u ← NilEmpty.uint_of_string d;
  Some (Z.of_uint u).

(** [int(s)] in base 10: blanks around, an optional sign, the digits.
    [None] stands for [ValueError].  The interpreter's optional cap on
    the number of digits is not part of the embedding. *)
Definition to_Z (s : string) : option Z :=
  match strip_by is_int_space s with
  | EmptyString => None
  | String c r =>
      if Ascii.eqb c "-" then Z.opp <$> int_literal r
      else if Ascii.eqb c "+" then int_literal r
      else int_literal (String c r)
  end.

End PyStr.

(** ** Python values, dictionaries and exceptions *)

(** The values a stored record holds. *)
Inductive pyval :=
  | PNone
  | PBool (b : bool)
  | PInt (n : Z)
  | PStr (s : string).

(** Exception classes, with the classes they derive from. *)
Inductive exn :=
  | BaseException | Exception | CancelledError | KeyboardInterrupt
  | ValueError | TypeError | AttributeError
  | OSError | ConnectionError | ConnectionResetError | BrokenPipeError
  | RPCError | BadRequest | OffsetInvalid | Flood | FloodWait.

Definition base (e : exn) : option exn :=
  match e with
  | BaseException => None
  | Exception | CancelledError | KeyboardInterrupt => Some BaseException
  | ValueError | TypeError | AttributeError | OSError | RPCError => Some Exception
  | ConnectionError => Some OSError
  | ConnectionResetError | BrokenPipeError => Some ConnectionError
  | BadRequest | Flood => Some RPCError
  | OffsetInvalid => Some BadRequest
  | FloodWait => Some Flood
  end.

Global Instance exn_eq_dec : EqDecision exn.
Proof. solve_decision. Defined.

Global Instance pyval_eq_dec : EqDecision pyval.
Proof. solve_decision. Defined.

(** [isinstance(e, c)]: [c] is [e]'s class or one it derives from. *)
Fixpoint derives (depth : nat) (e c : exn) : bool :=
  bool_decide (e = c) ||
  match depth, base e with
  | S d, Some b => derives d b c
  | _, _ => false
  end.

Definition isinstance (e c : exn) : bool := derives 4 e c.

(** An [except (c1, ..., cn):] clause catches [e]. *)
Definition except (classes : list exn) (e : exn) : bool :=
  existsb (isinstance e) classes.

Module Py.

(** Truth value of an object in [if x], [x or y], [not x]. *)
Definition truthy (v : pyval) : bool :=
  match v with
  | PNone => false
  | PBool b => b
  | PInt n => negb (n =? 0)
  | PStr s => negb (PyStr.is_empty s)
  end.

(** [a or b] *)
Definition or (a b : pyval) : pyval := if truthy a then a else b.

(** [str(v)] and [f"{v}"] *)
Definition str (v : pyval) : string :=
  match v with
  | PNone => "None"
  | PBool true => "True"
  | PBool false => "False"
  | PInt n => PyStr.of_Z n
  | PStr s => s
  end.

(** [d.get(k)] and [d.get(k, dflt)] *)
Definition get (d : gmap string pyval) (k : string) : pyval :=
  default PNone (d !! k).

Definition get_or (d : gmap string pyval) (k : string) (dflt : pyval) : pyval :=
  default dflt (d !! k).

(** [d.update(d')]: the entries of [d'] win. *)
Definition update (d d' : gmap string string) : gmap string string := d' ∪ d.

End Py.

(** ** Outcomes, the event log and the handler monad *)

Inductive outcome (A : Type) :=
  | Ok (a : A)
  | Raise (e : exn).
Arguments Ok {A} a.
Arguments Raise {A} e.

(** [int(v)] *)
Definition py_int (v : pyval) : outcome Z :=
  match v with
  | PNone => Raise TypeError
  | PBool b => Ok (if b then 1 else 0)
  | PInt n => Ok n
  | PStr s => match PyStr.to_Z s with Some n => Ok n | None => Raise ValueError end
  end.

(** Calls made on the collaborators. *)
Inductive event :=
  | GetFile (id : string)
  | GetMessages (chat_id message_id : Z)
  | StreamMedia (offset limit : Z).

(** A computation of the handler: its outcome and the calls it made. *)
Definition io (A : Type) : Type := outcome A * list event.

Global Instance io_ret : MRet io := λ A a, (Ok a, []).

Global Instance io_bind : MBind io := λ A B f m,
  match m with
  | (Ok a, log) => let '(r, log') := f a in (r, log ++ log')
  | (Raise e, log) => (Raise e, log)
  end.

(** A computation that makes no call. *)
Definition pure {A} (o : outcome A) : io A := (o, []).

(** [await] of a collaborator's call, answered by the environment. *)
Definition await {A} (ev : event) (answer : outcome A) : io A := (answer, [ev]).

(** [try: m except Exception as e: h e] *)
Definition try_except {A} (m : io A) (h : exn -> io A) : io A :=
  match m with
  | (Raise e, log) =>
      if isinstance e Exception
      then let '(r, log') := h e in (r, log ++ log')
      else m
  | _ => m
  end.

(** ** Telegram messages, the environment, requests and responses *)

(** The media object of a message: [getattr(msg, msg.media.value)].
    [file_size] is an [int], as Pyrogram declares it; [file_name] and
    [mime_type] are [None] when the object has no such attribute. *)
Record file := {
  file_size : Z;
  file_name : option pyval;
  mime_type : option pyval;
}.

Record message := {
  message_id : Z;
  media : option file;
}.

Definition chunk : Type := list Byte.byte.

(** What [bot.stream_media] produces when it is iterated to its end:
    the chunks, then a normal end ([None]) or an exception. *)
Definition upstream : Type := list chunk * option exn.

Record env := {
  URL : string;                       (* Var.URL *)
  FILE_STORE : Z;                     (* Var.FILE_STORE *)
  get_file : string -> outcome (option (gmap string pyval));
  (* bot.get_messages as called by the handler, and as called again by
     the generator when the handler's call failed *)
  get_messages : Z -> Z -> outcome message;
  get_messages_again : Z -> Z -> outcome message;
  stream_media : message -> Z -> Z -> upstream;
}.

Record request := {
  path : string;
  match_info_id : string;             (* request.match_info['id'] *)
  range : option string;              (* request.headers.get("Range", 0) *)
}.

(** The closure of [media_streamer]: the variables of [stream_handler]
    it refers to. *)
Record streamer := {
  msg : option message;
  msg_id : Z;
  from_bytes : Z;
  req_length : Z;
}.

Inductive payload :=
  | Empty
  | Text (s : string)
  | ServerError (e : exn)             (* text=f"Server Error: {e}" *)
  | Json (j : gmap string pyval)
  | JsonError (e : exn)               (* {"error": str(e)} *)
  | Stream (g : streamer).

(** What a handler gives to [web.Response] or [web.json_response]: the
    status, the body, and the dictionary passed as [headers=]. *)
Record response := {
  status : Z;
  body : payload;
  headers : gmap string string;
}.

(** The [Content-Type] that the constructor of the response derives from
    the body: [text/plain] for [text=] and for a string [body=],
    [application/json] for [web.json_response], the payload's default
    for an iterated body, none without a body. *)
Definition body_content_type (b : payload) : option string :=
  match b with
  | Empty => None
  | Text _ | ServerError _ => Some "text/plain; charset=utf-8"
  | Json _ | JsonError _ => Some "application/json; charset=utf-8"
  | Stream _ => Some "application/octet-stream"
  end.

(** The header map of the response object the handler returns: the
    [headers=] dictionary, and the body's [Content-Type] when the
    dictionary has none.  Header names are compared as written; the
    routes write them all in their canonical case.  What the server adds
    later, when it writes the response ([Date], [Server], the length of a
    fixed body), is not part of it. *)
Definition header_map (r : response) : gmap string string :=
  match body_content_type (body r), headers r !! "Content-Type" with
  | Some content_type, None => <[ "Content-Type" := content_type ]> (headers r)
  | _, _ => headers r
  end.

(** ** The routes *)

(** [cors_headers()] *)
Definition cors_headers : gmap string string :=
  list_to_map [
    ("Access-Control-Allow-Origin", "*");
    ("Access-Control-Allow-Methods", "GET, POST, OPTIONS, HEAD");
    ("Access-Control-Allow-Headers", "Content-Type, Range, User-Agent, X-Requested-With");
    ("Access-Control-Expose-Headers", "Content-Length, Content-Range, Content-Disposition");
    ("Access-Control-Max-Age", "86400")
  ].

(** [if not file_data]: [None] or an empty record. *)
Definition no_file_data (file_data : option (gmap string pyval)) : bool :=
  match file_data with
  | None => true
  | Some d => bool_decide (d = ∅)
  end.

(** [GET /] *)
Definition root_route_handler (request : request) : io response :=
  mret {| status := 200;
          body := Json {[ "status" := PStr "running" ]};
          headers := cors_headers |}.

(** [GET /api/file/{id}] *)
Definition api_handler (E : env) (request : request) : io response :=
  try_except
    (let id := match_info_id request in
     file_data ← await (GetFile id) (get_file E id);
     if no_file_data file_data then
       mret {| status := 404;
               body := Json {[ "error" := PStr "File not found" ]};
               headers := cors_headers |}
     else
       let file_data := default ∅ file_data in
       let base_url := PyStr.strip_chars "/" (PyStr.strip (URL E)) in
       let stream_url := base_url +:+ "/watch/" +:+ id in
       let dl_link := base_url +:+ "/dl/" +:+ id in
       let drive_link :=
         if Py.truthy (Py.get file_data "drive_id")
         then PStr ("https://drive.google.com/file/d/"
                    +:+ Py.str (Py.get file_data "drive_id") +:+ "/view")
         else PNone in
       mret {| status := 200;
               body := Json (list_to_map [
                 ("id", PStr id);
                 ("title", Py.get_or file_data "anime_title" (PStr "Unknown"));
                 ("stream_url", PStr stream_url);
                 ("download_link", PStr dl_link);
                 ("drive_link", drive_link);
                 ("poster", Py.get file_data "poster");
                 ("genres", Py.get file_data "genres");
                 ("quality", Py.get file_data "quality") ]);
               headers := cors_headers |})
    (λ e, mret {| status := 500; body := JsonError e; headers := cors_headers |}).

(** [OPTIONS /stream/{id}], [/watch/{id}], [/dl/{id}] *)
Definition stream_options_handler (request : request) : io response :=
  mret {| status := 200; body := Empty; headers := cors_headers |}.

(** The resolved properties of the file: size, name, MIME type, and the
    message when the live fetch gave one. *)
Record properties := {
  p_file_size : Z;
  p_file_name : pyval;
  p_mime_type : pyval;
  p_msg : option message;
}.

(** The body of the inner [try] (lines 83-87): the live fetch. *)
Definition live_properties (E : env) (msg_id : Z) : io properties :=
  msg ← await (GetMessages (FILE_STORE E) msg_id) (get_messages E (FILE_STORE E) msg_id);
  file_id ← pure (match media msg with
                  | Some f => Ok f
                  | None => Raise AttributeError
                  end);
  let file_size := file_size file_id in
  let file_name := default (PStr "video.mp4") (file_name file_id) in
  let mime_type := Py.or (default (PStr "video/mp4") (mime_type file_id)) (PStr "video/mp4") in
  mret {| p_file_size := file_size; p_file_name := file_name;
          p_mime_type := mime_type; p_msg := Some msg |}.

(** The [except Exception] branch (lines 90-93): the stored fields. *)
Definition stored_properties (file_data : gmap string pyval) : io properties :=
  file_size ← pure (py_int (Py.get_or file_data "file_size" (PInt 0)));
  let file_name := Py.get_or file_data "file_name" (PStr "video.mp4") in
  let mime_type := PStr "video/mp4" in
  mret {| p_file_size := file_size; p_file_name := file_name;
          p_mime_type := mime_type; p_msg := None |}.

(** STEP 1 (lines 82-93) *)
Definition get_file_properties (E : env) (file_data : gmap string pyval)
    (msg_id : Z) : io properties :=
  try_except (live_properties E msg_id) (λ _, stored_properties file_data).

(** [if range_header] *)
Definition has_range (range_header : option string) : bool :=
  match range_header with
  | None => false
  | Some h => negb (PyStr.is_empty h)
  end.

(** STEP 2 (lines 96-105): the interval asked for. *)
Definition range_handling (range_header : option string) (file_size : Z)
    : outcome (Z * Z) :=
  if has_range range_header then
    match PyStr.split "-" (PyStr.replace "bytes=" EmptyString (default EmptyString range_header)) with
    | [from_bytes; until_bytes] =>
        match PyStr.to_Z from_bytes with
        | None => Raise ValueError
        | Some from_bytes =>
            if negb (PyStr.is_empty until_bytes) then
              match PyStr.to_Z until_bytes with
              | None => Raise ValueError
              | Some until_bytes => Ok (from_bytes, until_bytes)
              end
            else Ok (from_bytes, file_size - 1)
        end
    | _ => Raise ValueError
    end
  else Ok (0, file_size - 1).

(** The test of the strict validation (line 108). *)
Definition not_satisfiable (from_bytes until_bytes file_size : Z) : bool :=
  (until_bytes >=? file_size) || (from_bytes <? 0) || (until_bytes <? from_bytes).

(** The double quote of [filename="..."]. *)
Definition dquote : string := String (ascii_of_nat 34) EmptyString.

(** Lines 120-133: disposition and headers of a success response. *)
Definition success_headers (request : request) (p : properties)
    (from_bytes until_bytes req_length : Z) : gmap string string :=
  let disposition :=
    if PyStr.contains "/dl/" (path request) then "attachment" else "inline" in
  Py.update cors_headers (list_to_map [
    ("Content-Type", Py.str (p_mime_type p));
    ("Content-Range", "bytes " +:+ PyStr.of_Z from_bytes +:+ "-"
                      +:+ PyStr.of_Z until_bytes +:+ "/" +:+ PyStr.of_Z (p_file_size p));
    ("Content-Length", PyStr.of_Z req_length);
    ("Content-Disposition", disposition +:+ "; filename=" +:+ dquote
                            +:+ Py.str (p_file_name p) +:+ dquote);
    ("Accept-Ranges", "bytes") ]).

(** [GET /stream/{id}], [/watch/{id}], [/dl/{id}] (lines 73-173).
    [traceback.print_exc()] writes to the process log only and is not
    part of the response. *)
Definition stream_handler (E : env) (request : request) : io response :=
  try_except
    (let id := match_info_id request in
     file_data ← await (GetFile id) (get_file E id);
     if no_file_data file_data then
       mret {| status := 404; body := Text "❌ File Not Found"; headers := cors_headers |}
     else
       let file_data := default ∅ file_data in
       msg_id ← pure (py_int (Py.or (Py.get file_data "file_id")
                                    (Py.get file_data "message_id")));
       p ← get_file_properties E file_data msg_id;
       let file_size := p_file_size p in
       let range_header := range request in
       '(from_bytes, until_bytes) ← pure (range_handling range_header file_size);
       if not_satisfiable from_bytes until_bytes file_size then
         mret {| status := 416;
                 body := Text "416: Range not satisfiable";
                 headers := {[ "Content-Range" := "bytes */" +:+ PyStr.of_Z file_size ]} |}
       else
         let req_length := until_bytes - from_bytes + 1 in
         let headers := success_headers request p from_bytes until_bytes req_length in
         mret {| status := if has_range range_header then 206 else 200;
                 body := Stream {| msg := p_msg p; msg_id := msg_id;
                                   from_bytes := from_bytes; req_length := req_length |};
                 headers := headers |})
    (λ e, mret {| status := 500; body := ServerError e; headers := cors_headers |}).

(** ** The generator *)

(** [len(chunk)] *)
Definition len (c : chunk) : Z := Z.of_nat (length c).

(** The [async for] loop of lines 150-156 over what the upstream
    produces: each chunk is yielded as it comes, then counted, and the
    loop breaks once the count has reached [req_length].  Returns the
    chunks yielded and how the loop ended: [None] after a [break] or a
    normal end of the upstream, [Some e] when the upstream raised. *)
Fixpoint stream_loop (req_length total_yielded : Z) (chunks : list chunk)
    (ending : option exn) : list chunk * option exn :=
  match chunks with
  | [] => ([], ending)
  | chunk :: rest =>
      let total_yielded := total_yielded + len chunk in
      if total_yielded >=? req_length then ([chunk], None)
      else
        let '(yielded, e) := stream_loop req_length total_yielded rest ending in
        (chunk :: yielded, e)
  end.

(** What iterating [media_streamer()] to its end gives the HTTP layer:
    the chunks, how the generator ended ([None]: it returned), and the
    calls it made. *)
Record streamed := {
  yielded : list chunk;
  raised : option exn;
  calls : list event;
}.

(** Lines 158-163: the [except] clauses around the loop, all [pass]. *)
Definition swallow (e : exn) : option exn :=
  if except [RPCError; OffsetInvalid; FloodWait] e then None
  else if except [OSError; ConnectionResetError; BrokenPipeError] e then None
  else if except [Exception] e then None
  else Some e.

(** [media_streamer()] (lines 136-163) *)
Definition media_streamer (E : env) (g : streamer) : streamed :=
  let '(message_to_stream, log) :=
    match msg g with
    | Some m => (Some m, [])
    | None =>
        (* a bare [except: return] *)
        (match get_messages_again E (FILE_STORE E) (msg_id g) with
         | Ok m => Some m
         | Raise _ => None
         end, [GetMessages (FILE_STORE E) (msg_id g)])
    end in
  match message_to_stream with
  | None => {| yielded := []; raised := None; calls := log |}
  | Some m =>
      let '(chunks, ending) := stream_media E m (from_bytes g) (req_length g) in
      let '(yielded, e) := stream_loop (req_length g) 0 chunks ending in
      {| yielded := yielded;
         raised := e ≫= swallow;
         calls := log ++ [StreamMedia (from_bytes g) (req_length g)] |}
  end.

(** Total size of a sequence of chunks. *)
Definition total_bytes (cs : list chunk) : Z := foldr (λ c n, len c + n) 0 cs.

(** One exchange on a stream route: the handler's response, then its
    body iterated when it is the generator. *)
Record exchange := {
  result : outcome response;
  sent : list chunk;
  trace : list event;
}.

Definition serve (E : env) (request : request) : exchange :=
  let '(r, log) := stream_handler E request in
  match r with
  | Ok {| body := Stream g |} =>
      let s := media_streamer E g in
      {| result := r; sent := yielded s; trace := log ++ calls s |}
  | _ => {| result := r; sent := []; trace := log |}
  end.

(** ** Vocabulary of the statements *)

(** The request reached range handling: the record [file_data] exists,
    the message id [msg_id] was read from it, and STEP 1 resolved the
    properties [p], making the calls [log]. *)
Definition resolved (E : env) (request : request) (file_data : gmap string pyval)
    (msg_id : Z) (p : properties) (log : list event) : Prop :=
  get_file E (match_info_id request) = Ok (Some file_data) ∧
  no_file_data (Some file_data) = false ∧
  py_int (Py.or (Py.get file_data "file_id") (Py.get file_data "message_id")) = Ok msg_id ∧
  get_file_properties E file_data msg_id = (Ok p, log).

(** [int(s)] succeeds. *)
Definition is_int (s : string) : bool :=
  match PyStr.to_Z s with Some _ => true | None => false end.

(** The properties taken from the stored record when its size reads
    as [size]: the stored name or [video.mp4], and [video/mp4]. *)
Definition fallback (file_data : gmap string pyval) (size : Z) : properties :=
  {| p_file_size := size;
     p_file_name := Py.get_or file_data "file_name" (PStr "video.mp4");
     p_mime_type := PStr "video/mp4";
     p_msg := None |}.

(** A [Range] value that does not parse: it does not split into two
    tokens around one dash, or [int()] refuses the first token, or the
    second token is not empty and [int()] refuses it. *)
Definition malformed (h : string) : bool :=
  match PyStr.split "-" (PyStr.replace "bytes=" EmptyString h) with
  | [from_token; until_token] =>
      negb (is_int from_token)
      || negb (PyStr.is_empty until_token) && negb (is_int until_token)
  | _ => true
  end.

(** The failures of the upstream named transient: flood waits, invalid
    offsets, RPC errors, and operating-system and connection errors. *)
Definition transient (e : exn) : bool :=
  except [FloodWait; OffsetInvalid; RPCError;
          OSError; ConnectionResetError; BrokenPipeError] e.

(** The responses decided before any header is built from a range. *)
Definition range_not_satisfiable (file_size : Z) : response :=
  {| status := 416;
     body := Text "416: Range not satisfiable";
     headers := {[ "Content-Range" := "bytes */" +:+ PyStr.of_Z file_size ]} |}.

(** The response that carries the generator for the interval
    [from_bytes .. until_bytes]. *)
Definition streaming (request : request) (p : properties)
    (msg_id from_bytes until_bytes : Z) : response :=
  let req_length := until_bytes - from_bytes + 1 in
  {| status := if has_range (range request) then 206 else 200;
     body := Stream {| msg := p_msg p; msg_id := msg_id;
                       from_bytes := from_bytes; req_length := req_length |};
     headers := success_headers request p from_bytes until_bytes req_length |}.

Definition server_error (e : exn) : response :=
  {| status := 500; body := ServerError e; headers := cors_headers |}.

(** ** Sample collaborators *)

Module Sample.

Definition zeros (n : nat) : chunk := repeat Byte.x00 n.

Definition video (size : Z) : message :=
  {| message_id := 7;
     media := Some {| file_size := size;
                      file_name := Some (PStr "ep01.mkv");
                      mime_type := Some (PStr "video/x-matroska") |} |}.

(** An environment with one record, one answer of [bot.get_messages]
    to the handler and one to the generator, and one upstream. *)
Definition world (file_data : option (gmap string pyval))
    (live again : outcome message) (up : upstream) : env :=
  {| URL := "https://example.org/";
     FILE_STORE := -1001;
     get_file := λ _, Ok file_data;
     get_messages := λ _ _, live;
     get_messages_again := λ _ _, again;
     stream_media := λ _ _ _, up |}.

Definition get (id : string) (h : option string) : request :=
  {| path := "/watch/" +:+ id; match_info_id := id; range := h |}.

(** A 1000-byte file, fetched live. *)
Definition stored_1000 : gmap string pyval :=
  list_to_map [("file_id", PStr "7"); ("file_size", PInt 1000)].

Definition live_1000 : env :=
  world (Some stored_1000) (Ok (video 1000)) (Ok (video 1000))
        ([zeros 60; zeros 60], None).

Definition props_1000 : properties :=
  {| p_file_size := 1000;
     p_file_name := PStr "ep01.mkv";
     p_mime_type := PStr "video/x-matroska";
     p_msg := Some (video 1000) |}.

(** A 5-byte file that the upstream delivers as one chunk. *)
Definition live_5 : env :=
  world (Some (list_to_map [("file_id", PInt 7); ("file_size", PInt 5)]))
        (Ok (video 5)) (Ok (video 5)) ([zeros 5], None).

(** The live fetch fails with a flood wait; the record has a size. *)
Definition offline_1000 : env :=
  world (Some stored_1000) (Raise FloodWait) (Raise FloodWait) ([], None).

(** The live fetch fails and the record has no [file_size]. *)
Definition offline_no_size : env :=
  world (Some {[ "message_id" := PInt 9 ]}) (Raise FloodWait) (Raise FloodWait) ([], None).

(** The live fetch fails and the stored size is not a number. *)
Definition offline_bad_size : env :=
  world (Some (list_to_map [("file_id", PInt 7); ("file_size", PStr "1.2 GB")]))
        (Raise FloodWait) (Raise FloodWait) ([], None).

(** The upstream resets the connection after one chunk. *)
Definition reset_after_one : env :=
  world (Some stored_1000) (Ok (video 1000)) (Ok (video 1000))
        ([zeros 40], Some ConnectionResetError).

(** No record under the id. *)
Definition unknown : env :=
  world None (Ok (video 1000)) (Ok (video 1000)) ([], None).

(** The store is down. *)
Definition store_down : env :=
  {| URL := "https://example.org/";
     FILE_STORE := -1001;
     get_file := λ _, Raise OSError;
     get_messages := λ _ _, Ok (video 1000);
     get_messages_again := λ _ _, Ok (video 1000);
     stream_media := λ _ _ _, ([], None) |}.

(** A record that names no message. *)
Definition no_ids : env :=
  world (Some {[ "anime_title" := PStr "Episode 1" ]})
        (Ok (video 1000)) (Ok (video 1000)) ([], None).

(** The upstream is cancelled after one chunk. *)
Definition cancelled_after_one : env :=
  world (Some stored_1000) (Ok (video 1000)) (Ok (video 1000))
        ([zeros 40], Some CancelledError).

(** The live fetch returns a message without media. *)
Definition deleted_message : env :=
  world (Some stored_1000) (Ok {| message_id := 7; media := None |})
        (Raise FloodWait) ([], None).

(** The generator of the bytes 0..99 of the 1000-byte file. *)
Definition first_100 : streamer :=
  {| msg := Some (video 1000); msg_id := 7; from_bytes := 0; req_length := 100 |}.

(** The generator of the bytes 0..119 of the 1000-byte file. *)
Definition first_120 : streamer :=
  {| msg := Some (video 1000); msg_id := 7; from_bytes := 0; req_length := 120 |}.

End Sample.

(** ** Decimal numerals and the string operations *)

Section Numerals.
Import PyStr.
Implicit Types (d : Decimal.uint) (s rest : string) (n : Z).

Local Abbreviation numeral := NilEmpty.string_of_uint.

(** [str(n)] is a sign and a non-empty numeral. *)
Lemma of_Z_numeral n :
  ∃ d, d ≠ Decimal.Nil ∧ Z.of_uint d = Z.abs n ∧
       of_Z n = if n <? 0 then String "-" (numeral d) else numeral d.
Proof.
  destruct n as [|p|p].
  - exists (Decimal.D0 Decimal.Nil). by repeat split.
  - exists (Pos.to_uint p). split; [apply DecimalPos.Unsigned.to_uint_nonnil|].
    split; [exact (DecimalZ.of_to (Z.pos p))|].
    unfold of_Z. simpl. pose proof (DecimalPos.Unsigned.to_uint_nonnil p).
    by destruct (Pos.to_uint p).
  - exists (Pos.to_uint p). split; [apply DecimalPos.Unsigned.to_uint_nonnil|].
    split; [exact (DecimalZ.of_to (Z.pos p))|].
    unfold of_Z. simpl. pose proof (DecimalPos.Unsigned.to_uint_nonnil p).
    by destruct (Pos.to_uint p).
Qed.

Lemma split_numeral_dash d rest :
  split "-" (numeral d +:+ String "-" rest) = numeral d :: split "-" rest.
Proof. induction d; simpl; rewrite ?IHd; reflexivity. Qed.

Lemma split_numeral d : split "-" (numeral d) = [numeral d].
Proof. induction d; simpl; rewrite ?IHd; reflexivity. Qed.

Lemma replace_numeral d rest :
  replace_from "bytes=" EmptyString 0 (numeral d +:+ rest)
  = numeral d +:+ replace_from "bytes=" EmptyString 0 rest.
Proof. induction d; simpl; rewrite ?IHd; reflexivity. Qed.

Lemma replace_numeral_end d :
  replace_from "bytes=" EmptyString 0 (numeral d) = numeral d.
Proof. induction d; simpl; rewrite ?IHd; reflexivity. Qed.

Lemma rstrip_numeral d : rstrip_by is_int_space (numeral d) = numeral d.
Proof. induction d; simpl; rewrite ?IHd; reflexivity. Qed.

Lemma lstrip_numeral d : lstrip_by is_int_space (numeral d) = numeral d.
Proof. by destruct d. Qed.

Lemma strip_numeral d : strip_by is_int_space (numeral d) = numeral d.
Proof. unfold strip_by. by rewrite lstrip_numeral, rstrip_numeral. Qed.

Lemma digit_groups_numeral d : digit_groups true (numeral d) = Some (numeral d).
Proof. induction d; simpl; rewrite ?IHd; reflexivity. Qed.

Lemma int_literal_numeral d :
  d ≠ Decimal.Nil → int_literal (numeral d) = Some (Z.of_uint d).
Proof.
  intros Hd. unfold int_literal.
  assert (digit_groups false (numeral d) = Some (numeral d)) as ->.
  { destruct d; try done; simpl; by rewrite digit_groups_numeral. }
  simpl. by rewrite NilEmpty.usu.
Qed.

Lemma to_Z_numeral d : d ≠ Decimal.Nil → to_Z (numeral d) = Some (Z.of_uint d).
Proof.
  intros Hd. unfold to_Z. rewrite strip_numeral.
  rewrite <- (int_literal_numeral d Hd).
  destruct d; try done; reflexivity.
Qed.

(** [int(str(n)) == n] *)
Lemma to_Z_of_Z n : to_Z (of_Z n) = Some n.
Proof.
  destruct (of_Z_numeral n) as (d & Hd & Hv & ->).
  destruct (Z.ltb_spec n 0).
  - unfold to_Z, strip_by.
    change (lstrip_by is_int_space (String "-" (numeral d)))
      with (String "-" (numeral d)).
    cbn [rstrip_by]. rewrite rstrip_numeral.
    change (is_int_space "-") with false. cbn [andb].
    change (Ascii.eqb "-" "-") with true. cbv iota.
    rewrite int_literal_numeral by done. simpl. f_equal. lia.
  - rewrite to_Z_numeral by done. f_equal. lia.
Qed.

Lemma of_Z_nonneg n : 0 ≤ n → ∃ d, d ≠ Decimal.Nil ∧ of_Z n = numeral d.
Proof.
  intros Hn. destruct (of_Z_numeral n) as (d & Hd & _ & ->).
  exists d. split; [done|]. destruct (Z.ltb_spec n 0); [lia|done].
Qed.

Lemma numeral_not_empty d : d ≠ Decimal.Nil → is_empty (numeral d) = false.
Proof. by destruct d. Qed.

End Numerals.

(** ** Range handling *)

Section RangeHandling.
Import PyStr.
Implicit Types (h : string) (a b size : Z).

Lemma range_handling_absent (range_header : option string) size :
  has_range range_header = false →
  range_handling range_header size = Ok (0, size - 1).
Proof. intros H. unfold range_handling. by rewrite H. Qed.

Lemma has_range_false (range_header : option string) :
  has_range range_header = false ↔
  range_header = None ∨ range_header = Some EmptyString.
Proof.
  destruct range_header as [[|c r]|]; simpl; split; intros H;
    try done; auto; by destruct H.
Qed.

Lemma range_handling_raises (range_header : option string) size e :
  range_handling range_header size = Raise e → e = ValueError.
Proof.
  unfold range_handling.
  repeat case_match; intros [=]; done.
Qed.

Lemma range_handling_malformed h size :
  is_empty h = false →
  malformed h = true ↔ range_handling (Some h) size = Raise ValueError.
Proof.
  intros Hh. unfold range_handling, malformed, is_int, has_range.
  rewrite Hh. simpl.
  repeat case_match; simpl in *; split; intros; try done; congruence.
Qed.

Lemma replace_bytes rest :
  replace "bytes=" EmptyString ("bytes=" +:+ rest)
  = replace_from "bytes=" EmptyString 0 rest.
Proof. unfold replace. by destruct rest. Qed.

Lemma range_handling_bytes rest size :
  range_handling (Some ("bytes=" +:+ rest)) size =
  match split "-" (replace_from "bytes=" EmptyString 0 rest) with
  | [from_bytes; until_bytes] =>
      match to_Z from_bytes with
      | None => Raise ValueError
      | Some from_bytes =>
          if negb (is_empty until_bytes) then
            match to_Z until_bytes with
            | None => Raise ValueError
            | Some until_bytes => Ok (from_bytes, until_bytes)
            end
          else Ok (from_bytes, size - 1)
      end
  | _ => Raise ValueError
  end.
Proof.
  unfold range_handling.
  change (has_range (Some ("bytes=" +:+ rest))) with true. cbv iota.
  change (default EmptyString (Some ("bytes=" +:+ rest))) with ("bytes=" +:+ rest).
  by rewrite replace_bytes.
Qed.

Lemma range_handling_closed a b size :
  0 ≤ a → 0 ≤ b →
  range_handling (Some ("bytes=" +:+ of_Z a +:+ "-" +:+ of_Z b)) size = Ok (a, b).
Proof.
  intros Ha Hb.
  pose proof (to_Z_of_Z a) as Ta. pose proof (to_Z_of_Z b) as Tb.
  destruct (of_Z_nonneg a Ha) as (da & Hda & Ea).
  destruct (of_Z_nonneg b Hb) as (db & Hdb & Eb).
  rewrite Ea, Eb in *.
  rewrite range_handling_bytes, replace_numeral.
  change (replace_from "bytes=" EmptyString 0 ("-" +:+ ?s))
    with (String "-" (replace_from "bytes=" EmptyString 0 s)).
  rewrite replace_numeral_end, split_numeral_dash, split_numeral.
  rewrite Ta, numeral_not_empty, Tb by done. reflexivity.
Qed.

Lemma range_handling_open a size :
  0 ≤ a →
  range_handling (Some ("bytes=" +:+ of_Z a +:+ "-")) size = Ok (a, size - 1).
Proof.
  intros Ha.
  pose proof (to_Z_of_Z a) as Ta.
  destruct (of_Z_nonneg a Ha) as (da & Hda & Ea).
  rewrite Ea in *.
  rewrite range_handling_bytes, replace_numeral.
  change (replace_from "bytes=" EmptyString 0 "-") with "-"%string.
  rewrite split_numeral_dash.
  cbn [split]. rewrite Ta. reflexivity.
Qed.

End RangeHandling.

(** ** The stream handler, stage by stage *)

Section Handler.
Context (E : env) (request : request).
Implicit Types (file_data : gmap string pyval) (p : properties) (log : list event).

(** Once the properties are resolved, the response is decided by range
    handling and the strict validation alone. *)
Lemma stream_handler_resolved file_data msg_id p log :
  resolved E request file_data msg_id p log →
  stream_handler E request =
    (Ok match range_handling (range request) (p_file_size p) with
        | Raise e => server_error e
        | Ok (from_bytes, until_bytes) =>
            if not_satisfiable from_bytes until_bytes (p_file_size p)
            then range_not_satisfiable (p_file_size p)
            else streaming request p msg_id from_bytes until_bytes
        end,
     GetFile (match_info_id request) :: log).
Proof.
  intros (Hget & Hsome & Hid & Hprops).
  unfold stream_handler, mbind, io_bind, await, pure.
  rewrite Hget, Hsome. cbn [default from_option id].
  rewrite Hid, Hprops.
  destruct (range_handling _ _) as [[f u]|e] eqn:Hrange.
  - destruct (not_satisfiable f u (p_file_size p)); cbn; by rewrite !app_nil_r.
  - apply range_handling_raises in Hrange as ->. cbn. by rewrite !app_nil_r.
Qed.

End Handler.

(** ** The generator's loop *)

Section Loop.
Implicit Types (cs ys : list chunk) (c : chunk) (t : Z) (ending : option exn).

Lemma len_nonneg c : 0 ≤ len c.
Proof. unfold len. lia. Qed.

Lemma total_bytes_nonneg cs : 0 ≤ total_bytes cs.
Proof. induction cs as [|c cs IH]; simpl; [lia | pose proof (len_nonneg c); lia]. Qed.

Lemma total_bytes_app cs ys : total_bytes (cs ++ ys) = total_bytes cs + total_bytes ys.
Proof. induction cs as [|c cs IH]; simpl; lia. Qed.

(** What the loop yields is an initial segment of what the upstream
    produced. *)
Lemma stream_loop_prefix (req_length : Z) t cs ending :
  (stream_loop req_length t cs ending).1 `prefix_of` cs.
Proof.
  revert t. induction cs as [|c cs IH]; intros t; simpl; [done|].
  destruct (t + len c >=? req_length).
  - by exists cs.
  - specialize (IH (t + len c)).
    destruct (stream_loop _ _ cs _) as [ys e]. simpl in *.
    by apply prefix_cons.
Qed.

(** An upstream that stays under the budget is forwarded whole, with
    its ending. *)
Lemma stream_loop_short (req_length : Z) t cs ending :
  t + total_bytes cs < req_length →
  stream_loop req_length t cs ending = (cs, ending).
Proof.
  revert t. induction cs as [|c cs IH]; intros t H; simpl in *; [done|].
  pose proof (total_bytes_nonneg cs).
  destruct (Z.geb_spec (t + len c) req_length); [lia|].
  rewrite IH by lia. done.
Qed.

(** An upstream that reaches the budget is cut after the first chunk
    with which the running total reaches it: the total yielded is at
    least the budget, and the chunks before the last one stay under it. *)
Lemma stream_loop_break (req_length : Z) t cs ending :
  req_length ≤ t + total_bytes cs → t < req_length →
  ∃ ys c, stream_loop req_length t cs ending = (ys ++ [c], None) ∧
          t + total_bytes ys < req_length ≤ t + total_bytes ys + len c.
Proof.
  revert t. induction cs as [|c cs IH]; intros t H Ht; simpl in *; [lia|].
  destruct (Z.geb_spec (t + len c) req_length).
  - exists [], c. simpl. split; [done|lia].
  - destruct (IH (t + len c)) as (ys & c' & -> & Hys); [lia..|].
    exists (c :: ys), c'. simpl. split; [done|lia].
Qed.

End Loop.

(** ** Exceptions *)

Lemma swallow_exception e : isinstance e Exception = true → swallow e = None.
Proof.
  intros H. unfold swallow.
  repeat case_match; try done.
  unfold except in *. simpl in *. by rewrite H in *.
Qed.

Lemma swallow_only_exceptions e e' :
  swallow e = Some e' → e' = e ∧ isinstance e Exception = false.
Proof.
  unfold swallow. repeat case_match; try done. intros [= <-]. split; [done|].
  unfold except in *. simpl in *. by destruct (isinstance e Exception).
Qed.

(** The transient failures are instances of the classes named by the
    first two [except] clauses. *)
Lemma transient_named e :
  transient e = true →
  except [RPCError; OffsetInvalid; FloodWait] e
  || except [OSError; ConnectionResetError; BrokenPipeError] e = true.
Proof. by destruct e. Qed.

Lemma transient_exception e : transient e = true → isinstance e Exception = true.
Proof. by destruct e. Qed.

(** ** Headers *)

Section Headers.
Implicit Types (p : properties) (k v : string).

Lemma success_headers_content_length request p from_bytes until_bytes req_length :
  success_headers request p from_bytes until_bytes req_length !! "Content-Length"
  = Some (PyStr.of_Z req_length).
Proof. reflexivity. Qed.

Lemma success_headers_content_range request p from_bytes until_bytes req_length :
  success_headers request p from_bytes until_bytes req_length !! "Content-Range"
  = Some ("bytes " +:+ PyStr.of_Z from_bytes +:+ "-" +:+ PyStr.of_Z until_bytes
          +:+ "/" +:+ PyStr.of_Z (p_file_size p)).
Proof. reflexivity. Qed.

Lemma cors_headers_keys k :
  is_Some (cors_headers !! k) →
  k ∈ ["Access-Control-Allow-Origin"; "Access-Control-Allow-Methods";
       "Access-Control-Allow-Headers"; "Access-Control-Expose-Headers";
       "Access-Control-Max-Age"].
Proof.
  intros [v Hv]. apply elem_of_list_to_map_2 in Hv.
  apply (list_elem_of_fmap_2 fst) in Hv. exact Hv.
Qed.

Lemma cors_subseteq_success request p from_bytes until_bytes req_length :
  cors_headers ⊆ success_headers request p from_bytes until_bytes req_length.
Proof.
  unfold success_headers, Py.update.
  apply map_union_subseteq_r, map_disjoint_spec.
  intros k x y Hx Hy.
  assert (is_Some (cors_headers !! k)) as Hk by eauto.
  apply cors_headers_keys in Hk.
  repeat (apply elem_of_cons in Hk as [->|Hk]; [by vm_compute in Hx|]).
  by apply elem_of_nil in Hk.
Qed.

Lemma cors_absent_from_416 v k :
  is_Some (cors_headers !! k) →
  ({[ "Content-Range" := v ]} : gmap string string) !! k = None.
Proof.
  intros Hk. apply cors_headers_keys in Hk.
  repeat (apply elem_of_cons in Hk as [->|Hk]; [done|]).
  by apply elem_of_nil in Hk.
Qed.

End Headers.

(** ** Resolving the properties *)

Section Properties.
Context (E : env).
Implicit Types (file_data : gmap string pyval) (log : list event).

Lemma live_properties_log msg_id r log :
  live_properties E msg_id = (r, log) → log = [GetMessages (FILE_STORE E) msg_id].
Proof.
  unfold live_properties, mbind, io_bind, await, pure.
  destruct (get_messages _ _ _) as [m|e]; [|by intros [= _ <-]].
  destruct (media m); by intros [= _ <-].
Qed.

Lemma get_file_properties_log file_data msg_id r log :
  get_file_properties E file_data msg_id = (r, log) →
  log = [GetMessages (FILE_STORE E) msg_id].
Proof.
  unfold get_file_properties, try_except.
  destruct (live_properties E msg_id) as [[p|e] l] eqn:Hlive;
    apply live_properties_log in Hlive as ->.
  - by intros [= _ <-].
  - destruct (isinstance e Exception); [|by intros [= _ <-]].
    unfold stored_properties, mbind, io_bind, pure.
    destruct (py_int _); by intros [= _ <-].
Qed.

(** After a failed live fetch STEP 1 is the [except] branch. *)
Lemma get_file_properties_fallback file_data msg_id e log :
  live_properties E msg_id = (Raise e, log) →
  isinstance e Exception = true →
  get_file_properties E file_data msg_id =
    (match py_int (Py.get_or file_data "file_size" (PInt 0)) with
     | Ok size => Ok (fallback file_data size)
     | Raise e' => Raise e'
     end, log).
Proof.
  intros Hlive He. unfold get_file_properties, try_except. rewrite Hlive, He.
  unfold stored_properties, mbind, io_bind, pure.
  destruct (py_int _); cbn; by rewrite !app_nil_r.
Qed.

Lemma fallback_resolved request file_data msg_id e log size :
  get_file E (match_info_id request) = Ok (Some file_data) →
  no_file_data (Some file_data) = false →
  py_int (Py.or (Py.get file_data "file_id") (Py.get file_data "message_id")) = Ok msg_id →
  live_properties E msg_id = (Raise e, log) →
  isinstance e Exception = true →
  py_int (Py.get_or file_data "file_size" (PInt 0)) = Ok size →
  resolved E request file_data msg_id (fallback file_data size) log.
Proof.
  intros Hget Hsome Hid Hlive He Hsize. repeat split; try done.
  by rewrite (get_file_properties_fallback file_data msg_id e log Hlive He), Hsize.
Qed.

End Properties.

(** ** One exchange *)

Section Exchange.
Context (E : env) (request : request).

Lemma serve_not_streaming resp log :
  stream_handler E request = (Ok resp, log) →
  (∀ g, body resp ≠ Stream g) →
  serve E request = {| result := Ok resp; sent := []; trace := log |}.
Proof.
  intros H Hbody. unfold serve. rewrite H.
  destruct resp as [st [| | | | |g] hs]; try done. by destruct (Hbody g).
Qed.

Lemma serve_streaming st g hs log :
  stream_handler E request = (Ok {| status := st; body := Stream g; headers := hs |}, log) →
  serve E request =
    {| result := Ok {| status := st; body := Stream g; headers := hs |};
       sent := yielded (media_streamer E g);
       trace := log ++ calls (media_streamer E g) |}.
Proof. intros H. unfold serve. by rewrite H. Qed.

End Exchange.

(** ** Range validation and the success responses *)

(** C3. For a range that parsed to [from_bytes .. until_bytes] against
    the resolved size, the handler answers 416 exactly when
    [until_bytes >= file_size] or [from_bytes < 0] or
    [until_bytes < from_bytes]; the 416 response carries the one header
    [Content-Range: bytes */file_size], has a fixed text body, and the
    exchange never calls [bot.stream_media]; otherwise the response is
    the one built from the success headers. *)
Theorem strict_validation E request file_data msg_id p log from_bytes until_bytes :
  resolved E request file_data msg_id p log →
  range_handling (range request) (p_file_size p) = Ok (from_bytes, until_bytes) →
  ∃ resp,
    result (serve E request) = Ok resp ∧
    (status resp = 416 ↔
       until_bytes >= p_file_size p ∨ from_bytes < 0 ∨ until_bytes < from_bytes) ∧
    (status resp = 416 →
       headers resp = {[ "Content-Range" := "bytes */" +:+ PyStr.of_Z (p_file_size p) ]} ∧
       body resp = Text "416: Range not satisfiable" ∧
       sent (serve E request) = [] ∧
       ∀ offset limit, StreamMedia offset limit ∉ trace (serve E request)) ∧
    (status resp ≠ 416 →
       resp = streaming request p msg_id from_bytes until_bytes).
Proof.
  intros Hres Hrange.
  pose proof (stream_handler_resolved E request _ _ _ _ Hres) as Hh.
  rewrite Hrange in Hh.
  assert (not_satisfiable from_bytes until_bytes (p_file_size p) = true ↔
          until_bytes >= p_file_size p ∨ from_bytes < 0 ∨ until_bytes < from_bytes)
    as Hiff.
  { unfold not_satisfiable. rewrite !orb_true_iff, Z.geb_le, !Z.ltb_lt. lia. }
  destruct (not_satisfiable _ _ _) eqn:Hns.
  - exists (range_not_satisfiable (p_file_size p)).
    rewrite (serve_not_streaming E request _ _ Hh) by done. simpl.
    split; [done|]. split; [split; [intros _; by apply Hiff | done]|].
    split; [|done]. intros _. repeat split; try done.
    intros offset limit [[=]|Hin]%elem_of_cons.
    destruct Hres as (_ & _ & _ & Hp).
    apply get_file_properties_log in Hp as ->.
    by apply list_elem_of_singleton in Hin.
  - exists (streaming request p msg_id from_bytes until_bytes).
    unfold streaming in *. rewrite (serve_streaming E request _ _ _ _ Hh). simpl.
    assert (¬ (until_bytes >= p_file_size p ∨ from_bytes < 0 ∨ until_bytes < from_bytes))
      by (intros H; by apply Hiff in H).
    split; [done|].
    destruct (has_range _); (split; [done|]); split; done.
Qed.

(** C5. With a resolved size above zero and a [Range] header absent or
    empty, the interval is [0 .. file_size - 1], the status is 200,
    [Content-Length] is the size and [Content-Range] is
    [bytes 0-(file_size-1)/file_size]. *)
Theorem full_content E request file_data msg_id p log :
  resolved E request file_data msg_id p log →
  0 < p_file_size p →
  range request = None ∨ range request = Some EmptyString →
  range_handling (range request) (p_file_size p) = Ok (0, p_file_size p - 1) ∧
  ∃ resp,
    stream_handler E request = (Ok resp, GetFile (match_info_id request) :: log) ∧
    status resp = 200 ∧
    headers resp !! "Content-Length" = Some (PyStr.of_Z (p_file_size p)) ∧
    headers resp !! "Content-Range" =
      Some ("bytes 0-" +:+ PyStr.of_Z (p_file_size p - 1) +:+ "/"
            +:+ PyStr.of_Z (p_file_size p)) ∧
    body resp = Stream {| msg := p_msg p; msg_id := msg_id;
                          from_bytes := 0; req_length := p_file_size p |}.
Proof.
  intros Hres Hsize Hno%has_range_false.
  pose proof (range_handling_absent _ (p_file_size p) Hno) as Hrange.
  split; [done|].
  pose proof (stream_handler_resolved E request _ _ _ _ Hres) as Hh.
  rewrite Hrange in Hh.
  assert (not_satisfiable 0 (p_file_size p - 1) (p_file_size p) = false) as Hns.
  { unfold not_satisfiable. rewrite !orb_false_iff, Z.geb_leb, Z.leb_gt, !Z.ltb_ge. lia. }
  rewrite Hns in Hh. eexists. split; [exact Hh|].
  unfold streaming. rewrite Hno. cbn [status headers body].
  replace (p_file_size p - 1 - 0 + 1) with (p_file_size p) by lia.
  by rewrite success_headers_content_length, success_headers_content_range.
Qed.

(** C6. For the header [bytes=a-b] with [0 <= a <= b < file_size] the
    interval is [a .. b], the status is 206, [Content-Length] is
    [b - a + 1] and [Content-Range] is [bytes a-b/file_size]. *)
Theorem partial_content E request file_data msg_id p log a b :
  resolved E request file_data msg_id p log →
  range request = Some ("bytes=" +:+ PyStr.of_Z a +:+ "-" +:+ PyStr.of_Z b) →
  0 ≤ a ≤ b ∧ b < p_file_size p →
  range_handling (range request) (p_file_size p) = Ok (a, b) ∧
  ∃ resp,
    stream_handler E request = (Ok resp, GetFile (match_info_id request) :: log) ∧
    status resp = 206 ∧
    headers resp !! "Content-Length" = Some (PyStr.of_Z (b - a + 1)) ∧
    headers resp !! "Content-Range" =
      Some ("bytes " +:+ PyStr.of_Z a +:+ "-" +:+ PyStr.of_Z b +:+ "/"
            +:+ PyStr.of_Z (p_file_size p)) ∧
    body resp = Stream {| msg := p_msg p; msg_id := msg_id;
                          from_bytes := a; req_length := b - a + 1 |}.
Proof.
  intros Hres Hhdr Hab.
  assert (range_handling (range request) (p_file_size p) = Ok (a, b)) as Hrange.
  { rewrite Hhdr. apply range_handling_closed; lia. }
  split; [done|].
  pose proof (stream_handler_resolved E request _ _ _ _ Hres) as Hh.
  rewrite Hrange in Hh.
  assert (not_satisfiable a b (p_file_size p) = false) as Hns.
  { unfold not_satisfiable. rewrite !orb_false_iff, Z.geb_leb, Z.leb_gt, !Z.ltb_ge. lia. }
  rewrite Hns in Hh. eexists. split; [exact Hh|].
  unfold streaming. rewrite Hhdr. cbn [status headers body].
  by rewrite success_headers_content_length, success_headers_content_range.
Qed.

(** C7. For the open-ended header [bytes=a-] with [0 <= a < file_size]
    the interval is [a .. file_size - 1]. *)
Theorem open_ended_range a file_size :
  0 ≤ a < file_size →
  range_handling (Some ("bytes=" +:+ PyStr.of_Z a +:+ "-")) file_size
  = Ok (a, file_size - 1).
Proof. intros Ha. apply range_handling_open. lia. Qed.

(** ** Malformed ranges *)

(** C2, as stated, fails: for the header [bytes=abc-def] on a resolved
    file the response is the 500 of the handler's catch-all, not 416. *)
Lemma malformed_range_answer :
  let request := Sample.get "f1" (Some "bytes=abc-def") in
  malformed "bytes=abc-def" = true ∧
  (stream_handler Sample.live_1000 request).1 = Ok (server_error ValueError) ∧
  status (server_error ValueError) ≠ 416.
Proof. by vm_compute. Qed.

(** C2, amended. When the [Range] header is present and does not parse
    (it does not split into two tokens, or [int()] refuses a token),
    the [ValueError] reaches the handler's [except Exception]: the
    response is 500 with the CORS headers, for every resolved file. *)
Theorem malformed_range_server_error E request file_data msg_id p log h :
  resolved E request file_data msg_id p log →
  range request = Some h →
  PyStr.is_empty h = false →
  malformed h = true →
  stream_handler E request
  = (Ok {| status := 500; body := ServerError ValueError; headers := cors_headers |},
     GetFile (match_info_id request) :: log).
Proof.
  intros Hres Hhdr Hne Hbad.
  rewrite (stream_handler_resolved E request _ _ _ _ Hres), Hhdr.
  by apply (range_handling_malformed h (p_file_size p) Hne) in Hbad as ->.
Qed.

(** ** The fallback of STEP 1 *)

(** C4, as stated, fails: when the live fetch fails and the stored
    [file_size] does not convert, [int()] raises inside the [except]
    branch and the request ends in the 500 of the catch-all, without a
    [Range] header having been looked at. *)
Lemma fallback_can_abort :
  let request := Sample.get "f1" None in
  live_properties Sample.offline_bad_size 7 = (Raise FloodWait, [GetMessages (-1001) 7]) ∧
  (stream_handler Sample.offline_bad_size request).1 = Ok (server_error ValueError) ∧
  (stream_handler Sample.offline_bad_size (Sample.get "f1" (Some "bytes=0-9"))).1
    = Ok (server_error ValueError).
Proof. by vm_compute. Qed.

(** C4, amended. When the live fetch raises an [Exception] and the
    stored [file_size] is absent or converts with [int()], the handler
    falls back to the stored record (size, or 0 when absent; name, or
    [video.mp4] when absent; [video/mp4]), never answers 404, and goes
    on to range handling: 500 when the range does not parse, 416 when it
    is rejected, else the streaming response whose generator fetches the
    message again. *)
Theorem live_failure_falls_back E request file_data msg_id e log size :
  get_file E (match_info_id request) = Ok (Some file_data) →
  no_file_data (Some file_data) = false →
  py_int (Py.or (Py.get file_data "file_id") (Py.get file_data "message_id")) = Ok msg_id →
  live_properties E msg_id = (Raise e, log) →
  isinstance e Exception = true →
  py_int (Py.get_or file_data "file_size" (PInt 0)) = Ok size →
  let p := fallback file_data size in
  resolved E request file_data msg_id p log ∧
  ∃ resp,
    stream_handler E request = (Ok resp, GetFile (match_info_id request) :: log) ∧
    status resp ≠ 404 ∧
    match range_handling (range request) size with
    | Raise _ => status resp = 500
    | Ok (from_bytes, until_bytes) =>
        if not_satisfiable from_bytes until_bytes size
        then resp = range_not_satisfiable size
        else resp = streaming request p msg_id from_bytes until_bytes ∧
             body resp = Stream {| msg := None; msg_id := msg_id;
                                   from_bytes := from_bytes;
                                   req_length := until_bytes - from_bytes + 1 |}
    end.
Proof.
  intros Hget Hsome Hid Hlive He Hsize p.
  pose proof (fallback_resolved E request file_data msg_id e log size
                Hget Hsome Hid Hlive He Hsize) as Hres.
  split; [done|].
  rewrite (stream_handler_resolved E request _ _ _ _ Hres).
  eexists. split; [done|]. cbn [p_file_size p fallback].
  destruct (range_handling _ _) as [[f u]|e']; [|done].
  destruct (not_satisfiable _ _ _); [done|].
  unfold streaming. cbn [status]. by destruct (has_range _).
Qed.

(** C9, as stated, fails: with no stored size and a failed live fetch,
    a request whose [Range] header does not parse gets 500, not 416. *)
Lemma no_stored_size_malformed_range :
  let request := Sample.get "f0" (Some "bytes=abc-def") in
  live_properties Sample.offline_no_size 9 = (Raise FloodWait, [GetMessages (-1001) 9]) ∧
  (stream_handler Sample.offline_no_size request).1 = Ok (server_error ValueError) ∧
  status (server_error ValueError) ≠ 416.
Proof. by vm_compute. Qed.

(** C9, amended. When the live fetch raises an [Exception] and the
    record has no [file_size], the size resolves to 0, and every request
    whose [Range] header is absent, empty, or parses is answered 416
    with the one header [Content-Range: bytes */0]; nothing is sent and
    [bot.stream_media] is never called. *)
Theorem no_stored_size_rejected E request file_data msg_id e log :
  get_file E (match_info_id request) = Ok (Some file_data) →
  no_file_data (Some file_data) = false →
  py_int (Py.or (Py.get file_data "file_id") (Py.get file_data "message_id")) = Ok msg_id →
  live_properties E msg_id = (Raise e, log) →
  isinstance e Exception = true →
  file_data !! "file_size" = None →
  (range request = None ∨ range request = Some EmptyString ∨
   ∃ h, range request = Some h ∧ malformed h = false) →
  resolved E request file_data msg_id (fallback file_data 0) log ∧
  result (serve E request)
  = Ok {| status := 416;
          body := Text "416: Range not satisfiable";
          headers := {[ "Content-Range" := "bytes */0" ]} |} ∧
  sent (serve E request) = [] ∧
  ∀ offset limit, StreamMedia offset limit ∉ trace (serve E request).
Proof.
  intros Hget Hsome Hid Hlive He Hnone Hrange.
  assert (py_int (Py.get_or file_data "file_size" (PInt 0)) = Ok 0) as Hsize.
  { unfold Py.get_or. by rewrite Hnone. }
  pose proof (fallback_resolved E request file_data msg_id e log 0
                Hget Hsome Hid Hlive He Hsize) as Hres.
  split; [done|].
  pose proof (stream_handler_resolved E request _ _ _ _ Hres) as Hh.
  cbn [p_file_size fallback] in Hh.
  assert (∃ f u, range_handling (range request) 0 = Ok (f, u)) as (f & u & Hr).
  { destruct Hrange as [H|[H|(h & H & Hh')]].
    - rewrite range_handling_absent; [eauto|by apply has_range_false; left].
    - rewrite range_handling_absent; [eauto|by apply has_range_false; right].
    - rewrite H. destruct (PyStr.is_empty h) eqn:Hem.
      + destruct h; [|done]. rewrite range_handling_absent; [eauto|done].
      + destruct (range_handling (Some h) 0) as [[f u]|e'] eqn:Hr; [eauto|].
        pose proof (range_handling_raises _ _ _ Hr) as ->.
        apply (range_handling_malformed h 0 Hem) in Hr. congruence. }
  rewrite Hr in Hh.
  assert (not_satisfiable f u 0 = true) as Hns.
  { unfold not_satisfiable. rewrite !orb_true_iff, Z.geb_leb, Z.leb_le, !Z.ltb_lt. lia. }
  rewrite Hns in Hh.
  rewrite (serve_not_streaming E request _ _ Hh) by done. simpl.
  repeat split; try done.
  intros offset limit [[=]|Hin]%elem_of_cons.
  destruct Hres as (_ & _ & _ & Hp).
  apply get_file_properties_log in Hp as ->.
  by apply list_elem_of_singleton in Hin.
Qed.
(** ** The generator *)

(** C8. When the upstream raises a transient failure while it is being
    iterated (a flood wait, an invalid offset, an RPC error, an
    operating-system or connection error), the generator returns
    instead of raising: the HTTP layer gets the chunks yielded so far, an
    initial segment of what the upstream produced, and no exception. *)
Theorem transient_failure_swallowed E g m chunks e :
  (msg g = Some m ∨
   msg g = None ∧ get_messages_again E (FILE_STORE E) (msg_id g) = Ok m) →
  stream_media E m (from_bytes g) (req_length g) = (chunks, Some e) →
  transient e = true →
  raised (media_streamer E g) = None ∧
  yielded (media_streamer E g) `prefix_of` chunks ∧
  (total_bytes chunks < req_length g → yielded (media_streamer E g) = chunks).
Proof.
  intros Hmsg Hup He.
  assert (media_streamer E g =
          {| yielded := (stream_loop (req_length g) 0 chunks (Some e)).1;
             raised := (stream_loop (req_length g) 0 chunks (Some e)).2 ≫= swallow;
             calls := match msg g with
                      | Some _ => []
                      | None => [GetMessages (FILE_STORE E) (msg_id g)]
                      end ++ [StreamMedia (from_bytes g) (req_length g)] |}) as ->.
  { unfold media_streamer.
    destruct Hmsg as [->|[-> ->]]; rewrite Hup;
      by destruct (stream_loop _ _ _ _). }
  cbn [yielded raised]. split; [|split].
  - destruct (Z.lt_ge_cases (total_bytes chunks) (req_length g)).
    + rewrite stream_loop_short by lia. simpl.
      by apply swallow_exception, transient_exception.
    + destruct (decide (0 < req_length g)).
      * by destruct (stream_loop_break (req_length g) 0 chunks (Some e))
          as (ys & c & -> & _); [lia..|].
      * destruct chunks as [|c cs]; simpl.
        -- by apply swallow_exception, transient_exception.
        -- pose proof (len_nonneg c).
           by destruct (Z.geb_spec (0 + len c) (req_length g)); [|lia].
  - apply stream_loop_prefix.
  - intros Hlt. by rewrite stream_loop_short by lia.
Qed.

(** ** CORS headers *)

(** The [headers=] dictionaries.  For a 416 the stream handler passes
    the single entry [Content-Range: bytes */file_size]; for every other
    response of the stream handler (200, 206, 404, 500) and for every
    response of the OPTIONS, API and root handlers the dictionary
    contains [cors_headers()]. *)
Lemma cors_except_on_416 E request :
  (∀ resp log, stream_handler E request = (Ok resp, log) →
     (status resp = 416 →
        (∃ file_data msg_id p log',
           resolved E request file_data msg_id p log' ∧
           headers resp = {[ "Content-Range" := "bytes */" +:+ PyStr.of_Z (p_file_size p) ]}) ∧
        ∀ k, is_Some (cors_headers !! k) → headers resp !! k = None) ∧
     (status resp ≠ 416 →
        status resp ∈ [200; 206; 404; 500] ∧ cors_headers ⊆ headers resp)) ∧
  (∀ resp log, stream_options_handler request = (Ok resp, log) →
     status resp = 200 ∧ cors_headers ⊆ headers resp) ∧
  (∀ resp log, api_handler E request = (Ok resp, log) →
     status resp ∈ [200; 404; 500] ∧ cors_headers ⊆ headers resp) ∧
  (∀ resp log, root_route_handler request = (Ok resp, log) →
     status resp = 200 ∧ cors_headers ⊆ headers resp).
Proof.
  assert (∀ st : Z, In st [200; 206; 404; 500] → st ∈ [200; 206; 404; 500])
    as Hin by (intros st; apply list_elem_of_In).
  assert (∀ st : Z, In st [200; 404; 500] → st ∈ [200; 404; 500])
    as Hin' by (intros st; apply list_elem_of_In).
  split; [|split; [|split]].
  - intros resp log.
    unfold stream_handler, mbind, io_bind, await, pure, try_except, mret, io_ret.
    destruct (get_file E _) as [fd|e] eqn:Hget.
    2:{ destruct (isinstance e Exception); [|done].
        intros [= <- _]. cbn [status headers]. split; [done|].
        intros _. split; [apply Hin; simpl; tauto|done]. }
    destruct (no_file_data fd) eqn:Hno.
    { intros [= <- _]. cbn [status headers]. split; [done|].
      intros _. split; [apply Hin; simpl; tauto|done]. }
    destruct fd as [fd|]; [|done]. cbn [default from_option id].
    destruct (py_int _) as [mid|e] eqn:Hid.
    2:{ destruct (isinstance e Exception); [|done].
        intros [= <- _]. cbn [status headers]. split; [done|].
        intros _. split; [apply Hin; simpl; tauto|done]. }
    destruct (get_file_properties E fd mid) as [[p|e] l] eqn:Hp.
    2:{ destruct (isinstance e Exception); [|done].
        intros [= <- _]. cbn [status headers]. split; [done|].
        intros _. split; [apply Hin; simpl; tauto|done]. }
    destruct (range_handling _ _) as [[f u]|e] eqn:Hr.
    2:{ destruct (isinstance e Exception); [|done].
        intros [= <- _]. cbn [status headers]. split; [done|].
        intros _. split; [apply Hin; simpl; tauto|done]. }
    destruct (not_satisfiable f u _) eqn:Hns.
    + intros [= <- _]. cbn [status headers]. split; [|done]. intros _. split.
      * by exists fd, mid, p, l.
      * apply cors_absent_from_416.
    + intros [= <- _]. cbn [status headers].
      split; [by destruct (has_range _)|]. intros _.
      split; [destruct (has_range _); apply Hin; simpl; tauto
             | apply cors_subseteq_success].
  - by intros resp log [= <- _].
  - intros resp log.
    unfold api_handler, mbind, io_bind, await, try_except, mret, io_ret.
    destruct (get_file E _) as [fd|e] eqn:Hget.
    2:{ destruct (isinstance e Exception); [|done].
        intros [= <- _]. cbn [status headers].
        split; [apply Hin'; simpl; tauto|done]. }
    destruct (no_file_data fd); intros [= <- _]; cbn [status headers];
      (split; [apply Hin'; simpl; tauto|done]).
  - by intros resp log [= <- _].
Qed.
(** ** The byte budget *)

(** C1, at a failing input.  A 5-byte file whose upstream delivers one
    5-byte chunk, asked for with [Range: bytes=0-2]: the response
    announces [Content-Length: 3], and the generator yields the whole
    chunk, 5 bytes, where the budget is 3 and [min 3 5 = 3]. *)
Theorem overshoot_reaches_client :
  let x := serve Sample.live_5 (Sample.get "f5" (Some "bytes=0-2")) in
  (∃ resp, result x = Ok resp ∧ status resp = 206 ∧
           headers resp !! "Content-Length" = Some "3"%string ∧
           ∃ g, body resp = Stream g ∧ req_length g = 3) ∧
  total_bytes (sent x) = 5 ∧
  total_bytes (sent x) ≠ Z.min 3 5.
Proof.
  split; [|by vm_compute].
  eexists. split; [by vm_compute|]. split; [done|]. split; [by vm_compute|].
  eexists. split; done.
Qed.

(** ** The statements at sample requests *)

Lemma strict_validation_witness :
  let request := Sample.get "f1" (Some "bytes=999-1500") in
  resolved Sample.live_1000 request Sample.stored_1000 7 Sample.props_1000
           [GetMessages (-1001) 7] ∧
  range_handling (range request) 1000 = Ok (999, 1500) ∧
  ∃ resp, result (serve Sample.live_1000 request) = Ok resp ∧ status resp = 416.
Proof.
  intros request.
  assert (resolved Sample.live_1000 request Sample.stored_1000 7 Sample.props_1000
            [GetMessages (-1001) 7]) as Hres
    by (unfold resolved; repeat split; vm_compute; reflexivity).
  assert (range_handling (range request) (p_file_size Sample.props_1000)
          = Ok (999, 1500)) as Hrange by (vm_compute; reflexivity).
  split; [exact Hres|]. split; [exact Hrange|].
  destruct (strict_validation _ _ _ _ _ _ _ _ Hres Hrange) as (resp & Hr & Hiff & _).
  exists resp. split; [exact Hr|]. apply Hiff. left. vm_compute. discriminate.
Defined.

Lemma full_content_witness :
  let request := Sample.get "f1" None in
  resolved Sample.live_1000 request Sample.stored_1000 7 Sample.props_1000
           [GetMessages (-1001) 7] ∧
  range_handling (range request) 1000 = Ok (0, 999).
Proof.
  intros request.
  assert (resolved Sample.live_1000 request Sample.stored_1000 7 Sample.props_1000
            [GetMessages (-1001) 7]) as Hres
    by (unfold resolved; repeat split; vm_compute; reflexivity).
  split; [exact Hres|].
  refine (proj1 (full_content _ _ _ _ _ _ Hres _ _)).
  - reflexivity.
  - left. reflexivity.
Defined.

Lemma partial_content_witness :
  let request := Sample.get "f1" (Some "bytes=500-599") in
  resolved Sample.live_1000 request Sample.stored_1000 7 Sample.props_1000
           [GetMessages (-1001) 7] ∧
  range_handling (range request) 1000 = Ok (500, 599).
Proof.
  intros request.
  assert (resolved Sample.live_1000 request Sample.stored_1000 7 Sample.props_1000
            [GetMessages (-1001) 7]) as Hres
    by (unfold resolved; repeat split; vm_compute; reflexivity).
  split; [exact Hres|].
  refine (proj1 (partial_content _ _ _ _ _ _ 500 599 Hres _ _)).
  - reflexivity.
  - vm_compute. repeat split; discriminate.
Defined.

Lemma open_ended_range_witness :
  range_handling (Some "bytes=100-") 1000 = Ok (100, 999).
Proof. apply (open_ended_range 100 1000). vm_compute. split; [discriminate|reflexivity]. Defined.

Lemma malformed_range_server_error_witness :
  let request := Sample.get "f1" (Some "bytes=-500") in
  malformed "bytes=-500" = true ∧
  (stream_handler Sample.live_1000 request).1
  = Ok {| status := 500; body := ServerError ValueError; headers := cors_headers |}.
Proof.
  intros request.
  assert (resolved Sample.live_1000 request Sample.stored_1000 7 Sample.props_1000
            [GetMessages (-1001) 7]) as Hres
    by (unfold resolved; repeat split; vm_compute; reflexivity).
  assert (malformed "bytes=-500" = true) as Hbad by (vm_compute; reflexivity).
  split; [exact Hbad|].
  rewrite (malformed_range_server_error _ _ _ _ _ _ "bytes=-500" Hres
             eq_refl eq_refl Hbad).
  reflexivity.
Defined.

Lemma live_failure_falls_back_witness :
  let request := Sample.get "f1" None in
  live_properties Sample.offline_1000 7 = (Raise FloodWait, [GetMessages (-1001) 7]) ∧
  resolved Sample.offline_1000 request Sample.stored_1000 7
           (fallback Sample.stored_1000 1000) [GetMessages (-1001) 7].
Proof.
  intros request.
  assert (live_properties Sample.offline_1000 7
          = (Raise FloodWait, [GetMessages (-1001) 7])) as Hlive
    by (vm_compute; reflexivity).
  split; [exact Hlive|].
  refine (proj1 (live_failure_falls_back Sample.offline_1000 request
                   Sample.stored_1000 7 FloodWait _ 1000 _ _ _ Hlive _ _));
    vm_compute; reflexivity.
Defined.

Lemma no_stored_size_rejected_witness :
  let request := Sample.get "f0" None in
  live_properties Sample.offline_no_size 9 = (Raise FloodWait, [GetMessages (-1001) 9]) ∧
  result (serve Sample.offline_no_size request)
  = Ok {| status := 416;
          body := Text "416: Range not satisfiable";
          headers := {[ "Content-Range" := "bytes */0" ]} |}.
Proof.
  intros request.
  assert (live_properties Sample.offline_no_size 9
          = (Raise FloodWait, [GetMessages (-1001) 9])) as Hlive
    by (vm_compute; reflexivity).
  split; [exact Hlive|].
  refine (proj1 (proj2 (no_stored_size_rejected Sample.offline_no_size request
                   {[ "message_id" := PInt 9 ]} 9 FloodWait _ _ _ _ Hlive _ _ _))).
  - vm_compute; reflexivity.
  - vm_compute; reflexivity.
  - vm_compute; reflexivity.
  - vm_compute; reflexivity.
  - vm_compute; reflexivity.
  - left. reflexivity.
Defined.

Lemma transient_failure_swallowed_witness :
  let g := {| msg := Some (Sample.video 1000); msg_id := 7;
              from_bytes := 0; req_length := 100 |} in
  transient ConnectionResetError = true ∧
  raised (media_streamer Sample.reset_after_one g) = None.
Proof.
  intros g.
  assert (transient ConnectionResetError = true) as He by (vm_compute; reflexivity).
  split; [exact He|].
  refine (proj1 (transient_failure_swallowed Sample.reset_after_one g
                   (Sample.video 1000) [Sample.zeros 40] ConnectionResetError _ _ He)).
  - left. reflexivity.
  - vm_compute; reflexivity.
Defined.

(** ** The stream handler, case by case *)

Section HandlerCases.
Context (E : env) (request : request).

Lemma py_int_raises v e : py_int v = Raise e → isinstance e Exception = true.
Proof. destruct v; simpl; try done; [by intros [= <-] | case_match; [done|by intros [= <-]]]. Qed.

(** The handler's outcome along each of its exits. *)
Lemma stream_handler_cases :
  stream_handler E request =
  let id := match_info_id request in
  match get_file E id with
  | Raise e =>
      (if isinstance e Exception then Ok (server_error e) else Raise e, [GetFile id])
  | Ok file_data =>
      if no_file_data file_data then
        (Ok {| status := 404; body := Text "❌ File Not Found"; headers := cors_headers |},
         [GetFile id])
      else
        let file_data := default ∅ file_data in
        match py_int (Py.or (Py.get file_data "file_id") (Py.get file_data "message_id")) with
        | Raise e => (Ok (server_error e), [GetFile id])
        | Ok msg_id =>
            match get_file_properties E file_data msg_id with
            | (Raise e, log) =>
                (if isinstance e Exception then Ok (server_error e) else Raise e,
                 GetFile id :: log)
            | (Ok p, log) =>
                (Ok match range_handling (range request) (p_file_size p) with
                    | Raise e => server_error e
                    | Ok (from_bytes, until_bytes) =>
                        if not_satisfiable from_bytes until_bytes (p_file_size p)
                        then range_not_satisfiable (p_file_size p)
                        else streaming request p msg_id from_bytes until_bytes
                    end,
                 GetFile id :: log)
            end
        end
  end.
Proof.
  cbv zeta.
  destruct (get_file E (match_info_id request)) as [fd|e] eqn:Hget.
  2:{ unfold stream_handler, mbind, io_bind, await, try_except. rewrite Hget.
      by destruct (isinstance e Exception). }
  destruct (no_file_data fd) eqn:Hno.
  { unfold stream_handler, mbind, io_bind, await, try_except. by rewrite Hget, Hno. }
  destruct fd as [fd|]; [|done]. cbn [default from_option id].
  destruct (py_int _) as [mid|e] eqn:Hid.
  2:{ unfold stream_handler, mbind, io_bind, await, pure, try_except.
      rewrite Hget, Hno. cbn [default from_option id]. rewrite Hid.
      by rewrite (py_int_raises _ _ Hid). }
  destruct (get_file_properties E fd mid) as [[p|e] log] eqn:Hp.
  - apply (stream_handler_resolved E request fd mid p log). by repeat split.
  - unfold stream_handler, mbind, io_bind, await, pure, try_except.
    rewrite Hget, Hno. cbn [default from_option id]. rewrite Hid, Hp.
    destruct (isinstance e Exception); [|done].
    unfold mret, io_ret. cbn [app]. by rewrite app_nil_r.
Qed.

End HandlerCases.

(** ** Exits of the handlers before any range is read *)

(** An unknown id ([db.get_file] gives [None] or an empty record) is a
    404 with the CORS headers on the stream routes and on the API route,
    whatever the [Range] header; only the store is called and nothing is
    streamed. *)
Theorem unknown_id_not_found E request file_data :
  get_file E (match_info_id request) = Ok file_data →
  file_data = None ∨ file_data = Some ∅ →
  serve E request =
    {| result := Ok {| status := 404; body := Text "❌ File Not Found";
                       headers := cors_headers |};
       sent := [];
       trace := [GetFile (match_info_id request)] |} ∧
  api_handler E request =
    (Ok {| status := 404; body := Json {[ "error" := PStr "File not found" ]};
           headers := cors_headers |},
     [GetFile (match_info_id request)]).
Proof.
  intros Hget Hnone.
  assert (no_file_data file_data = true) as Hno by (by destruct Hnone as [->| ->]).
  split.
  - apply serve_not_streaming; [|done].
    rewrite stream_handler_cases. cbv zeta. by rewrite Hget, Hno.
  - unfold api_handler, mbind, io_bind, await, try_except. by rewrite Hget, Hno.
Qed.

(** When the store raises an [Exception], both handlers answer 500 with
    the CORS headers and make no other call; nothing is streamed. *)
Theorem store_failure_server_error E request e :
  get_file E (match_info_id request) = Raise e →
  isinstance e Exception = true →
  serve E request =
    {| result := Ok {| status := 500; body := ServerError e; headers := cors_headers |};
       sent := [];
       trace := [GetFile (match_info_id request)] |} ∧
  api_handler E request =
    (Ok {| status := 500; body := JsonError e; headers := cors_headers |},
     [GetFile (match_info_id request)]).
Proof.
  intros Hget He. split.
  - apply serve_not_streaming; [|done].
    rewrite stream_handler_cases. cbv zeta. by rewrite Hget, He.
  - unfold api_handler, mbind, io_bind, await, try_except. by rewrite Hget, He.
Qed.

(** A record whose [file_id] is missing or falsy and which has no
    [message_id] makes [int(None)] raise: the stream handler answers 500
    without calling the bot. *)
Theorem missing_message_id E request file_data :
  get_file E (match_info_id request) = Ok (Some file_data) →
  file_data ≠ ∅ →
  Py.truthy (Py.get file_data "file_id") = false →
  file_data !! "message_id" = None →
  serve E request =
    {| result := Ok {| status := 500; body := ServerError TypeError;
                       headers := cors_headers |};
       sent := [];
       trace := [GetFile (match_info_id request)] |}.
Proof.
  intros Hget Hne Hfid Hmid.
  apply serve_not_streaming; [|done].
  rewrite stream_handler_cases. cbv zeta. rewrite Hget.
  assert (no_file_data (Some file_data) = false) as ->
    by (simpl; by apply bool_decide_eq_false).
  cbn [default from_option id].
  unfold Py.or. rewrite Hfid. unfold Py.get at 1. by rewrite Hmid.
Qed.

(** The handlers let no [Exception] escape: what the stream handler
    raises is an exception outside [Exception] that the store or
    [bot.get_messages] raised, and what the API handler raises is one
    that the store raised. *)
Theorem handlers_catch_exceptions E request e log :
  (stream_handler E request = (Raise e, log) →
     isinstance e Exception = false ∧
     (get_file E (match_info_id request) = Raise e ∨
      ∃ msg_id, get_messages E (FILE_STORE E) msg_id = Raise e)) ∧
  (api_handler E request = (Raise e, log) →
     isinstance e Exception = false ∧
     get_file E (match_info_id request) = Raise e).
Proof.
  split.
  - rewrite stream_handler_cases. cbv zeta.
    destruct (get_file E _) as [fd|e0] eqn:Hget.
    2:{ destruct (isinstance e0 Exception) eqn:He0; [done|].
        intros [= -> _]. auto. }
    destruct (no_file_data fd); [done|].
    destruct (py_int _) as [mid|e0]; [|done].
    destruct (get_file_properties E _ mid) as [[p|e0] l] eqn:Hp; [done|].
    destruct (isinstance e0 Exception) eqn:He0; [done|].
    intros [= -> _]. split; [done|]. right. exists mid.
    revert Hp. unfold get_file_properties, try_except, live_properties,
      mbind, io_bind, await, pure.
    destruct (get_messages E _ mid) as [m|e1].
    + destruct (media m); [done|].
      change (isinstance AttributeError Exception) with true. cbv iota.
      unfold stored_properties, mbind, io_bind, pure.
      destruct (py_int _) as [sz|e2] eqn:Hsz; [done|].
      intros [= -> _]. by rewrite (py_int_raises _ _ Hsz) in He0.
    + destruct (isinstance e1 Exception) eqn:He1; [|by intros [= -> _]].
      unfold stored_properties, mbind, io_bind, pure.
      destruct (py_int _) as [sz|e2] eqn:Hsz; [done|].
      intros [= -> _]. by rewrite (py_int_raises _ _ Hsz) in He0.
  - unfold api_handler, mbind, io_bind, await, try_except.
    destruct (get_file E _) as [fd|e0] eqn:Hget.
    + by destruct (no_file_data fd).
    + destruct (isinstance e0 Exception) eqn:He0; [done|]. by intros [= -> _].
Qed.

(** ** Streaming responses and the calls of one exchange *)

(** Whenever the stream handler hands the generator to the HTTP layer,
    the status is 206 with a [Range] header and 200 without, the
    generator's interval lies inside the file ([0 <= from_bytes],
    [1 <= req_length], [from_bytes + req_length <= file_size]), and the
    [Content-Length] header reads back, with [int()], as [req_length]. *)
Theorem streaming_invariant E request resp log g :
  stream_handler E request = (Ok resp, log) →
  body resp = Stream g →
  ∃ file_data p log',
    resolved E request file_data (msg_id g) p log' ∧
    log = GetFile (match_info_id request) :: log' ∧
    msg g = p_msg p ∧
    0 ≤ from_bytes g ∧ 1 ≤ req_length g ∧
    from_bytes g + req_length g ≤ p_file_size p ∧
    status resp = (if has_range (range request) then 206 else 200) ∧
    headers resp !! "Content-Length" ≫= PyStr.to_Z = Some (req_length g).
Proof.
  rewrite stream_handler_cases. cbv zeta.
  destruct (get_file E _) as [fd|e0] eqn:Hget.
  2:{ destruct (isinstance e0 Exception); [|done]. by intros [= <- _]. }
  destruct (no_file_data fd) eqn:Hno; [by intros [= <- _]|].
  destruct fd as [fd|]; [|done]. cbn [default from_option id].
  destruct (py_int _) as [mid|e0] eqn:Hid; [|by intros [= <- _]].
  destruct (get_file_properties E fd mid) as [[p|e0] l] eqn:Hp.
  2:{ destruct (isinstance e0 Exception); [|done]. by intros [= <- _]. }
  destruct (range_handling _ _) as [[f u]|e0] eqn:Hr; [|by intros [= <- _]].
  destruct (not_satisfiable f u _) eqn:Hns; [by intros [= <- _]|].
  intros [= <- <-] [= <-]. cbn [msg_id msg from_bytes req_length].
  exists fd, p, l.
  unfold not_satisfiable in Hns.
  rewrite !orb_false_iff, Z.geb_leb, Z.leb_gt, !Z.ltb_ge in Hns.
  repeat split; try done; try lia.
  cbn [headers streaming]. rewrite success_headers_content_length. simpl.
  apply to_Z_of_Z.
Qed.

(** The calls of an exchange that streams: the store, the live fetch,
    a second fetch by the generator when the first gave no message, and
    then [bot.stream_media] with [from_bytes] as offset and [req_length]
    as limit, unless the second fetch failed. *)
Theorem streaming_trace E request file_data mid p log f u :
  resolved E request file_data mid p log →
  range_handling (range request) (p_file_size p) = Ok (f, u) →
  not_satisfiable f u (p_file_size p) = false →
  trace (serve E request) =
    [GetFile (match_info_id request); GetMessages (FILE_STORE E) mid] ++
    match p_msg p with
    | Some _ => [StreamMedia f (u - f + 1)]
    | None =>
        GetMessages (FILE_STORE E) mid ::
        match get_messages_again E (FILE_STORE E) mid with
        | Ok _ => [StreamMedia f (u - f + 1)]
        | Raise _ => []
        end
    end.
Proof.
  intros Hres Hr Hns.
  pose proof (stream_handler_resolved E request _ _ _ _ Hres) as Hh.
  rewrite Hr, Hns in Hh. unfold streaming in Hh.
  rewrite (serve_streaming E request _ _ _ _ Hh). cbn [trace].
  destruct Hres as (_ & _ & _ & Hp).
  apply get_file_properties_log in Hp as ->.
  unfold media_streamer. cbn [msg msg_id from_bytes req_length].
  destruct (p_msg p) as [m|].
  - destruct (stream_media E m _ _) as [chunks ending].
    by destruct (stream_loop _ _ _ _).
  - destruct (get_messages_again E _ _) as [m|e]; [|done].
    destruct (stream_media E m _ _) as [chunks ending].
    by destruct (stream_loop _ _ _ _).
Qed.

(** [bot.stream_media] is called only behind a 200 or 206 response, and
    then with the offset and the limit of the validated interval. *)
Theorem stream_media_only_on_success E request offset limit :
  StreamMedia offset limit ∈ trace (serve E request) →
  ∃ resp g,
    result (serve E request) = Ok resp ∧
    status resp ∈ [200; 206] ∧
    body resp = Stream g ∧
    offset = from_bytes g ∧ limit = req_length g ∧
    0 ≤ offset ∧ 1 ≤ limit.
Proof.
  unfold serve.
  destruct (stream_handler E request) as [r log] eqn:Hh.
  assert (StreamMedia offset limit ∉ log) as Hlog.
  { revert Hh. rewrite stream_handler_cases. cbv zeta.
    destruct (get_file E _) as [fd|e0];
      [|intros [= _ <-]; by intros [[=]|[]%elem_of_nil]%elem_of_cons].
    destruct (no_file_data fd);
      [intros [= _ <-]; by intros [[=]|[]%elem_of_nil]%elem_of_cons|].
    destruct (py_int _) as [mid|e0];
      [|intros [= _ <-]; by intros [[=]|[]%elem_of_nil]%elem_of_cons].
    destruct (get_file_properties E _ mid) as [[p|e0] l] eqn:Hp;
      apply get_file_properties_log in Hp as ->;
      intros [= _ <-];
      by intros [[=]|[[=]|[]%elem_of_nil]%elem_of_cons]%elem_of_cons. }
  destruct r as [[st [| | | | |g] hs]|e]; cbn [trace]; try done.
  intros [Hin|Hin]%elem_of_app; [done|].
  destruct (streaming_invariant E request _ _ g Hh eq_refl)
    as (fd & p & l & _ & _ & _ & Hf & Hq & _ & Hst & _).
  exists {| status := st; body := Stream g; headers := hs |}, g.
  cbn [result status body] in *.
  assert (offset = from_bytes g ∧ limit = req_length g) as [-> ->].
  { revert Hin. unfold media_streamer.
    destruct (msg g) as [m|].
    - destruct (stream_media E m _ _) as [chunks ending].
      destruct (stream_loop _ _ _ _). cbn [calls app].
      intros [[= -> ->]|[]%elem_of_nil]%elem_of_cons. done.
    - destruct (get_messages_again E _ _) as [m|e].
      + destruct (stream_media E m _ _) as [chunks ending].
        destruct (stream_loop _ _ _ _). cbn [calls app].
        intros [[=]|[[= -> ->]|[]%elem_of_nil]%elem_of_cons]%elem_of_cons. done.
      + cbn [calls]. by intros [[=]|[]%elem_of_nil]%elem_of_cons. }
  repeat split; try done.
  rewrite Hst. destruct (has_range _); apply list_elem_of_In; simpl; tauto.
Qed.

(** When the live fetch gave no message and the generator's own fetch
    fails, with any exception at all, the exchange still answers 200 or
    206 with its headers, sends no byte, raises nothing and never calls
    [bot.stream_media]. *)
Theorem refetch_failure_empty_body E request file_data mid p log f u e :
  resolved E request file_data mid p log →
  p_msg p = None →
  range_handling (range request) (p_file_size p) = Ok (f, u) →
  not_satisfiable f u (p_file_size p) = false →
  get_messages_again E (FILE_STORE E) mid = Raise e →
  serve E request =
    {| result := Ok (streaming request p mid f u);
       sent := [];
       trace := [GetFile (match_info_id request);
                 GetMessages (FILE_STORE E) mid;
                 GetMessages (FILE_STORE E) mid] |} ∧
  ∀ g, body (streaming request p mid f u) = Stream g →
       raised (media_streamer E g) = None.
Proof.
  intros Hres Hmsg Hr Hns Hagain.
  pose proof (stream_handler_resolved E request _ _ _ _ Hres) as Hh.
  rewrite Hr, Hns in Hh. unfold streaming in *.
  rewrite (serve_streaming E request _ _ _ _ Hh).
  destruct Hres as (_ & _ & _ & Hp).
  apply get_file_properties_log in Hp as ->.
  unfold media_streamer. cbn [msg msg_id from_bytes req_length body].
  rewrite Hmsg, Hagain. split; [done|].
  intros g [= <-]. cbn [msg msg_id]. by rewrite Hagain.
Qed.

(** ** The generator and the byte budget *)

Section Generator.
Context (E : env) (g : streamer) (m : message) (chunks : list chunk)
        (ending : option exn).
Hypothesis Hmsg :
  msg g = Some m ∨
  msg g = None ∧ get_messages_again E (FILE_STORE E) (msg_id g) = Ok m.
Hypothesis Hup : stream_media E m (from_bytes g) (req_length g) = (chunks, ending).

Lemma media_streamer_loop :
  yielded (media_streamer E g) = (stream_loop (req_length g) 0 chunks ending).1 ∧
  raised (media_streamer E g) = (stream_loop (req_length g) 0 chunks ending).2 ≫= swallow.
Proof.
  unfold media_streamer.
  destruct Hmsg as [->|[-> ->]]; rewrite Hup; by destruct (stream_loop _ _ _ _).
Qed.

End Generator.


Lemma media_streamer_reaches E g m chunks ending :
  (msg g = Some m ∨
   msg g = None ∧ get_messages_again E (FILE_STORE E) (msg_id g) = Ok m) →
  stream_media E m (from_bytes g) (req_length g) = (chunks, ending) →
  0 < req_length g →
  req_length g ≤ total_bytes chunks →
  yielded (media_streamer E g) `prefix_of` chunks ∧
  raised (media_streamer E g) = None ∧
  ∃ ys c, yielded (media_streamer E g) = ys ++ [c] ∧
          total_bytes ys < req_length g ≤ total_bytes ys + len c.
Proof.
  intros Hmsg Hup Hpos Hge.
  destruct (media_streamer_loop E g m chunks ending Hmsg Hup) as [-> ->].
  split; [apply stream_loop_prefix|].
  destruct (stream_loop_break (req_length g) 0 chunks ending)
    as (ys & c & -> & Hys); [lia..|].
  split; [done|]. exists ys, c. split; [done|lia].
Qed.

(** What the generator sends for a budget [req_length > 0]: always an
    initial segment of the upstream's chunks; the whole of it, with the
    upstream's ending, when the upstream holds less than the budget;
    otherwise the shortest initial segment whose size reaches the
    budget, so that the excess over the budget is less than the last
    chunk sent. *)
Theorem budget_bounds E g m chunks ending :
  (msg g = Some m ∨
   msg g = None ∧ get_messages_again E (FILE_STORE E) (msg_id g) = Ok m) →
  stream_media E m (from_bytes g) (req_length g) = (chunks, ending) →
  0 < req_length g →
  yielded (media_streamer E g) `prefix_of` chunks ∧
  (total_bytes chunks < req_length g →
     yielded (media_streamer E g) = chunks ∧
     raised (media_streamer E g) = ending ≫= swallow) ∧
  (req_length g ≤ total_bytes chunks →
     raised (media_streamer E g) = None ∧
     ∃ ys c, yielded (media_streamer E g) = ys ++ [c] ∧
             total_bytes ys < req_length g ≤ total_bytes ys + len c).
Proof.
  intros Hmsg Hup Hpos.
  destruct (media_streamer_loop E g m chunks ending Hmsg Hup) as [-> ->].
  split; [apply stream_loop_prefix|]. split.
  - intros Hlt. by rewrite stream_loop_short by lia.
  - intros Hge.
    destruct (stream_loop_break (req_length g) 0 chunks ending)
      as (ys & c & -> & Hys); [lia..|].
    split; [done|]. exists ys, c. split; [done|lia].
Qed.

(** When some initial segment of the upstream's chunks has exactly the
    size of the budget, the generator sends exactly the budget. *)
Theorem exact_on_chunk_boundary E g m chunks ending ys :
  (msg g = Some m ∨
   msg g = None ∧ get_messages_again E (FILE_STORE E) (msg_id g) = Ok m) →
  stream_media E m (from_bytes g) (req_length g) = (chunks, ending) →
  0 < req_length g →
  ys `prefix_of` chunks →
  total_bytes ys = req_length g →
  total_bytes (yielded (media_streamer E g)) = req_length g ∧
  raised (media_streamer E g) = None.
Proof.
  intros Hmsg Hup Hpos [rest ->] Hys.
  destruct (media_streamer_reaches E g m (ys ++ rest) ending Hmsg Hup Hpos)
    as (Hpre & Hraised & zs & c & Hy & Hzs).
  { rewrite total_bytes_app. pose proof (total_bytes_nonneg rest). lia. }
  split; [|done]. rewrite Hy in *. rewrite total_bytes_app. simpl.
  destruct (prefix_weak_total (zs ++ [c]) ys (ys ++ rest)) as [[k Hk]|[k Hk]];
    [done|by exists rest|..].
  - rewrite Hk, !total_bytes_app in Hys. simpl in Hys.
    pose proof (total_bytes_nonneg k). lia.
  - destruct k as [|x k _] using rev_ind.
    + rewrite app_nil_r in Hk. rewrite <- Hk, total_bytes_app in Hys.
      simpl in Hys. lia.
    + rewrite app_assoc in Hk. apply app_inj_tail in Hk as [-> _].
      rewrite total_bytes_app in Hzs. pose proof (total_bytes_nonneg k). lia.
Qed.

(** An exception of the upstream outside [Exception] (a cancellation, a
    keyboard interrupt) raised before the budget is reached is not
    swallowed: the generator raises it after the chunks already sent. *)
Theorem cancellation_propagates E g m chunks e :
  (msg g = Some m ∨
   msg g = None ∧ get_messages_again E (FILE_STORE E) (msg_id g) = Ok m) →
  stream_media E m (from_bytes g) (req_length g) = (chunks, Some e) →
  isinstance e Exception = false →
  total_bytes chunks < req_length g →
  yielded (media_streamer E g) = chunks ∧
  raised (media_streamer E g) = Some e.
Proof.
  intros Hmsg Hup He Hlt.
  destruct (media_streamer_loop E g m chunks (Some e) Hmsg Hup) as [-> ->].
  rewrite stream_loop_short by lia. split; [done|]. simpl.
  destruct (swallow e) as [e'|] eqn:Hs.
  - by apply swallow_only_exceptions in Hs as [-> _].
  - unfold swallow, except in Hs. simpl in Hs.
    destruct e; try done.
Qed.

(** ** What a [Range] header can denote *)

Section Tokens.
Import PyStr.
Implicit Types (s t : string) (c sep : ascii) (p : ascii → bool).

Lemma split_not_nil sep s : split sep s ≠ [].
Proof. destruct s as [|c r]; simpl; [done|]. by repeat case_match. Qed.

(** No token of [s.split(sep)] contains the separator. *)
Lemma split_no_sep sep s t :
  t ∈ split sep s → sep ∉ list_ascii_of_string t.
Proof.
  revert t. induction s as [|c r IH]; intros t; simpl.
  - intros ->%list_elem_of_singleton. simpl. apply not_elem_of_nil.
  - destruct (Ascii.eqb_spec c sep) as [->|Hc].
    + intros [->|Hin]%elem_of_cons; [apply not_elem_of_nil|by apply IH].
    + destruct (split sep r) as [|t0 ts] eqn:Hs; [by destruct (split_not_nil sep r)|].
      intros [->|Hin]%elem_of_cons.
      * simpl. intros [?|Hin]%elem_of_cons; [done|].
        by apply (IH t0); [left|].
      * apply IH. by right.
Qed.

Lemma lstrip_by_head p s c r :
  lstrip_by p s = String c r → c ∈ list_ascii_of_string s.
Proof.
  induction s as [|a s IH]; simpl; [done|].
  destruct (p a).
  - intros H. right. by apply IH.
  - intros [= -> _]. by left.
Qed.

Lemma rstrip_by_head p s c r :
  rstrip_by p s = String c r → ∃ r', s = String c r'.
Proof.
  destruct s as [|a s]; simpl; [done|].
  destruct (p a && is_empty (rstrip_by p s)); [done|].
  intros [= -> _]. eauto.
Qed.

Lemma strip_by_head p s c r :
  strip_by p s = String c r → c ∈ list_ascii_of_string s.
Proof.
  unfold strip_by.
  intros (r' & H)%rstrip_by_head. by apply lstrip_by_head in H.
Qed.

Lemma int_literal_nonneg s n : int_literal s = Some n → 0 ≤ n.
Proof.
  unfold int_literal.
  destruct (digit_groups false s) as [d|]; [|done]. simpl.
  destruct (NilEmpty.uint_of_string d) as [u|]; [|done]. simpl.
  intros [= <-]. unfold Z.of_uint. lia.
Qed.

(** [int()] of a string without a dash is not negative. *)
Lemma to_Z_nonneg s n :
  to_Z s = Some n → "-"%char ∉ list_ascii_of_string s → 0 ≤ n.
Proof.
  unfold to_Z. destruct (strip_by is_int_space s) as [|c r] eqn:Hs; [done|].
  destruct (Ascii.eqb_spec c "-") as [->|_].
  - intros _ Hno. by apply strip_by_head in Hs.
  - destruct (Ascii.eqb c "+"); intros H _; by apply int_literal_nonneg in H.
Qed.

End Tokens.

(** Whatever the [Range] header, an interval that parses never starts
    below zero, and its end is a parsed number that is not negative or
    the default [file_size - 1]: the clause [from_bytes < 0] of the
    validation never decides. *)
Theorem parsed_range_nonnegative (range_header : option string) file_size f u :
  range_handling range_header file_size = Ok (f, u) →
  0 ≤ f ∧ (0 ≤ u ∨ u = file_size - 1) ∧
  not_satisfiable f u file_size = (u >=? file_size) || (u <? f).
Proof.
  intros H.
  assert (0 ≤ f ∧ (0 ≤ u ∨ u = file_size - 1)) as [Hf Hu].
  { revert H. unfold range_handling.
    destruct (has_range range_header); [|intros [= <- <-]; lia].
    destruct (PyStr.split _ _) as [|t1 [|t2 [|? ?]]] eqn:Hs; try done.
    assert ("-"%char ∉ list_ascii_of_string t1) as H1
      by (eapply split_no_sep; rewrite Hs; set_solver).
    assert ("-"%char ∉ list_ascii_of_string t2) as H2
      by (eapply split_no_sep; rewrite Hs; set_solver).
    destruct (PyStr.to_Z t1) as [n1|] eqn:E1; [|done].
    apply to_Z_nonneg in E1; [|done].
    destruct (negb (PyStr.is_empty t2)).
    - destruct (PyStr.to_Z t2) as [n2|] eqn:E2; [|done].
      apply to_Z_nonneg in E2; [|done]. intros [= <- <-]. lia.
    - intros [= <- <-]. lia. }
  split; [done|]. split; [done|].
  unfold not_satisfiable. destruct (Z.ltb_spec f 0); [lia|].
  by rewrite orb_false_r.
Qed.

(** The unit is optional: a header [a-b] without [bytes=] denotes the
    same interval as [bytes=a-b]. *)
Theorem range_unit_optional a b file_size :
  0 ≤ a → 0 ≤ b →
  range_handling (Some (PyStr.of_Z a +:+ "-" +:+ PyStr.of_Z b)) file_size = Ok (a, b) ∧
  range_handling (Some ("bytes=" +:+ PyStr.of_Z a +:+ "-" +:+ PyStr.of_Z b)) file_size
  = Ok (a, b).
Proof.
  intros Ha Hb. split; [|by apply range_handling_closed].
  pose proof (to_Z_of_Z a) as Ta. pose proof (to_Z_of_Z b) as Tb.
  destruct (of_Z_nonneg a Ha) as (da & Hda & Ea).
  destruct (of_Z_nonneg b Hb) as (db & Hdb & Eb).
  rewrite Ea, Eb in *.
  unfold range_handling.
  assert (has_range (Some (NilEmpty.string_of_uint da +:+ "-"
                           +:+ NilEmpty.string_of_uint db)) = true) as ->
    by (by destruct da).
  cbn [default from_option id]. unfold PyStr.replace.
  rewrite replace_numeral.
  change (PyStr.replace_from "bytes=" EmptyString 0 ("-" +:+ ?s))
    with (String "-" (PyStr.replace_from "bytes=" EmptyString 0 s)).
  rewrite replace_numeral_end, split_numeral_dash, split_numeral.
  rewrite Ta, numeral_not_empty, Tb by done. reflexivity.
Qed.

(** A [Range] header that asks for the whole file from byte 0 gets the
    same headers and the same generator as a request without the
    header; only the status differs, 206 against 200. *)
Theorem whole_file_range E r1 r2 file_data mid p log :
  resolved E r1 file_data mid p log →
  match_info_id r2 = match_info_id r1 →
  path r2 = path r1 →
  range r1 = Some "bytes=0-"%string →
  range r2 = None →
  0 < p_file_size p →
  ∃ resp1 resp2 l1 l2,
    stream_handler E r1 = (Ok resp1, l1) ∧
    stream_handler E r2 = (Ok resp2, l2) ∧
    status resp1 = 206 ∧ status resp2 = 200 ∧
    headers resp1 = headers resp2 ∧ body resp1 = body resp2.
Proof.
  intros Hres Hid Hpath Hr1 Hr2 Hsize.
  assert (resolved E r2 file_data mid p log) as Hres2.
  { destruct Hres as (? & ? & ? & ?). repeat split; try done. by rewrite Hid. }
  pose proof (stream_handler_resolved E r1 _ _ _ _ Hres) as H1.
  pose proof (stream_handler_resolved E r2 _ _ _ _ Hres2) as H2.
  rewrite Hr1 in H1. rewrite Hr2 in H2.
  assert (range_handling (Some "bytes=0-"%string) (p_file_size p)
          = Ok (0, p_file_size p - 1)) as Hopen
    by (apply (range_handling_open 0 (p_file_size p)); lia).
  rewrite Hopen in H1.
  rewrite range_handling_absent in H2 by done.
  assert (not_satisfiable 0 (p_file_size p - 1) (p_file_size p) = false) as Hns.
  { unfold not_satisfiable. rewrite !orb_false_iff, Z.geb_leb, Z.leb_gt, !Z.ltb_ge. lia. }
  rewrite Hns in H1, H2.
  eexists _, _, _, _. split; [exact H1|]. split; [exact H2|].
  unfold streaming, success_headers. rewrite Hr1, Hr2, Hpath. done.
Qed.

(** ** Disposition, links and the MIME type *)

Section Slashes.
Import PyStr.
Implicit Types (s r id : string) (c : ascii) (p : ascii → bool).

Lemma prefix_cons a s1 b s2 :
  String.prefix (String a s1) (String b s2)
  = if ascii_dec a b then String.prefix s1 s2 else false.
Proof. reflexivity. Qed.

Lemma contains_cons sub c r :
  contains sub (String c r) = String.prefix sub (String c r) || contains sub r.
Proof. reflexivity. Qed.

Ltac prefix_step :=
  rewrite prefix_cons;
  match goal with
  | |- context [ascii_dec ?a ?b] => destruct (ascii_dec a b) as [?|?]
  end; try discriminate; subst; cbv beta iota; cbn [orb].

Lemma contains_no_slash id :
  "/"%char ∉ list_ascii_of_string id → contains "/dl/" id = false.
Proof.
  induction id as [|c r IH]; [done|].
  intros Hno. rewrite contains_cons, IH by set_solver.
  prefix_step; [|done]. destruct Hno. by left.
Qed.

Lemma prefix_dl_no_slash id :
  "/"%char ∉ list_ascii_of_string id → String.prefix "dl/" id = false.
Proof.
  destruct id as [|c1 [|c2 [|c3 r]]]; try done; intros Hno.
  - by prefix_step.
  - prefix_step; [|done]. by prefix_step.
  - prefix_step; [|done]. prefix_step; [|done]. prefix_step; [|done].
    destruct Hno. simpl. set_solver.
Qed.

Lemma contains_dl_route id : contains "/dl/" ("/dl/" +:+ id) = true.
Proof. by destruct id. Qed.


Lemma contains_watch_route id :
  "/"%char ∉ list_ascii_of_string id → contains "/dl/" ("/watch/" +:+ id) = false.
Proof.
  intros Hno.
  change ("/watch/" +:+ id) with
    (String "/" (String "w" (String "a" (String "t" (String "c" (String "h"
       (String "/" id))))))).
  rewrite !contains_cons, contains_no_slash by done.
  repeat (rewrite prefix_cons;
          match goal with
          | |- context [ascii_dec ?a ?b] => destruct (ascii_dec a b) as [?|?]
          end; try discriminate; try congruence; cbv beta iota; cbn [orb]).
  all: by rewrite ?prefix_dl_no_slash by done.
Qed.

Lemma contains_stream_route id :
  "/"%char ∉ list_ascii_of_string id → contains "/dl/" ("/stream/" +:+ id) = false.
Proof.
  intros Hno.
  change ("/stream/" +:+ id) with
    (String "/" (String "s" (String "t" (String "r" (String "e" (String "a"
       (String "m" (String "/" id)))))))).
  rewrite !contains_cons, contains_no_slash by done.
  repeat (rewrite prefix_cons;
          match goal with
          | |- context [ascii_dec ?a ?b] => destruct (ascii_dec a b) as [?|?]
          end; try discriminate; try congruence; cbv beta iota; cbn [orb]).
  all: by rewrite ?prefix_dl_no_slash by done.
Qed.

Lemma rstrip_by_last p s r c :
  rstrip_by p s = r +:+ String c EmptyString → p c = false.
Proof.
  revert r. induction s as [|a s IH]; intros r; simpl.
  - by destruct r.
  - destruct (p a && is_empty (rstrip_by p s)) eqn:Hpa; [by destruct r|].
    destruct r as [|b r]; simpl.
    + intros [= -> Hr]. rewrite Hr in Hpa. simpl in Hpa.
      by rewrite andb_true_r in Hpa.
    + intros [= _ Hr]. by apply (IH r).
Qed.

Lemma lstrip_by_first p s c r : lstrip_by p s = String c r → p c = false.
Proof.
  induction s as [|a s IH]; simpl; [done|].
  destruct (p a) eqn:Hpa; [done|]. by intros [= <- _].
Qed.

(** [s.strip(chars)] neither starts nor ends with a stripped character. *)
Lemma strip_by_ends p s :
  (∀ c r, strip_by p s = String c r → p c = false) ∧
  (∀ c r, strip_by p s = r +:+ String c EmptyString → p c = false).
Proof.
  unfold strip_by. split; intros c r H.
  - destruct (rstrip_by_head p _ _ _ H) as (r' & Hl).
    by apply lstrip_by_first in Hl.
  - by apply rstrip_by_last in H.
Qed.

End Slashes.

(** A success response on [/dl/{id}] is an attachment, and on
    [/watch/{id}] and [/stream/{id}] it is inline, for an id without a
    slash; the file name is quoted after it. *)
Theorem disposition_by_route E request file_data mid p log f u :
  resolved E request file_data mid p log →
  range_handling (range request) (p_file_size p) = Ok (f, u) →
  not_satisfiable f u (p_file_size p) = false →
  "/"%char ∉ list_ascii_of_string (match_info_id request) →
  ∃ resp,
    stream_handler E request = (Ok resp, GetFile (match_info_id request) :: log) ∧
    (path request = "/dl/" +:+ match_info_id request →
       headers resp !! "Content-Disposition" =
         Some ("attachment; filename=" +:+ dquote +:+ Py.str (p_file_name p) +:+ dquote)) ∧
    (path request = "/watch/" +:+ match_info_id request ∨
     path request = "/stream/" +:+ match_info_id request →
       headers resp !! "Content-Disposition" =
         Some ("inline; filename=" +:+ dquote +:+ Py.str (p_file_name p) +:+ dquote)).
Proof.
  intros Hres Hr Hns Hid.
  pose proof (stream_handler_resolved E request _ _ _ _ Hres) as Hh.
  rewrite Hr, Hns in Hh. eexists. split; [exact Hh|].
  unfold streaming. cbn [headers].
  assert (success_headers request p f u (u - f + 1) !! "Content-Disposition"
               = Some ((if PyStr.contains "/dl/" (path request)
                        then "attachment" else "inline")
                       +:+ "; filename=" +:+ dquote +:+ Py.str (p_file_name p) +:+ dquote))
    as Hcd by reflexivity.
  rewrite Hcd. split.
  - intros ->. by rewrite contains_dl_route.
  - intros [-> | ->].
    + by rewrite contains_watch_route.
    + by rewrite contains_stream_route.
Qed.

(** For a known id the API answers 200 with the links
    [base/watch/id] and [base/dl/id], where [base] is the configured URL
    without blanks around it and without slashes at either end; the
    title defaults to [Unknown], the drive link is [null] exactly when
    the record has no truthy [drive_id], and only the store is called. *)
Theorem api_links E request file_data :
  get_file E (match_info_id request) = Ok (Some file_data) →
  file_data ≠ ∅ →
  let id := match_info_id request in
  let base := PyStr.strip_chars "/" (PyStr.strip (URL E)) in
  (∀ r, base ≠ String "/" r) ∧
  (∀ r, base ≠ r +:+ "/") ∧
  ∃ j,
    api_handler E request =
      (Ok {| status := 200; body := Json j; headers := cors_headers |}, [GetFile id]) ∧
    j !! "id" = Some (PStr id) ∧
    j !! "stream_url" = Some (PStr (base +:+ "/watch/" +:+ id)) ∧
    j !! "download_link" = Some (PStr (base +:+ "/dl/" +:+ id)) ∧
    j !! "title" = Some (Py.get_or file_data "anime_title" (PStr "Unknown")) ∧
    (j !! "drive_link" = Some PNone ↔ Py.truthy (Py.get file_data "drive_id") = false).
Proof.
  intros Hget Hne rid base.
  destruct (strip_by_ends
              (λ c, bool_decide (c ∈ list_ascii_of_string "/"))
              (PyStr.strip (URL E))) as [Hfirst Hlast].
  split; [|split].
  - intros r Hb. by specialize (Hfirst "/"%char r Hb).
  - intros r Hb. by specialize (Hlast "/"%char r Hb).
  - unfold api_handler, mbind, io_bind, await, try_except. rewrite Hget.
    assert (no_file_data (Some file_data) = false) as ->
      by (simpl; by apply bool_decide_eq_false).
    cbn [default from_option id].
    eexists. split; [reflexivity|].
    repeat split; try reflexivity.
    + intros H.
      destruct (Py.truthy (Py.get file_data "drive_id")); [|done].
      apply (inj Some) in H. discriminate H.
    + intros ->. reflexivity.
Qed.

(** The MIME type of the resolved properties is never empty, and it is
    [video/mp4] whenever the stored record was used. *)
Theorem content_type_default E file_data mid p log :
  get_file_properties E file_data mid = (Ok p, log) →
  PyStr.is_empty (Py.str (p_mime_type p)) = false ∧
  (p_msg p = None → p_mime_type p = PStr "video/mp4").
Proof.
  unfold get_file_properties, try_except, live_properties, mbind, io_bind,
    await, pure, stored_properties.
  assert (∀ v, Py.truthy v = true → PyStr.is_empty (Py.str v) = false) as Htruthy.
  { intros [|[]|n|s] Hv; simpl in *; try done.
    - destruct (of_Z_numeral n) as (d & Hd & _ & ->).
      destruct (n <? 0); [done|by apply numeral_not_empty].
    - by destruct s. }
  destruct (get_messages E _ mid) as [m|e].
  - destruct (media m) as [f|].
    + intros [= <- _]. cbn [p_mime_type p_msg]. split; [|done].
      unfold Py.or. destruct (Py.truthy _) eqn:Hv; [by apply Htruthy|done].
    + change (isinstance AttributeError Exception) with true. cbv iota.
      destruct (py_int _); [|done]. by intros [= <- _].
  - destruct (isinstance e Exception); [|done].
    destruct (py_int _); [|done]. by intros [= <- _].
Qed.

(** A message without media (a deleted or empty message) counts as a
    failed live fetch: the properties come from the stored record and
    the generator is left to fetch the message again. *)
Theorem message_without_media_falls_back E file_data mid m :
  get_messages E (FILE_STORE E) mid = Ok m →
  media m = None →
  get_file_properties E file_data mid =
    (match py_int (Py.get_or file_data "file_size" (PInt 0)) with
     | Ok size => Ok (fallback file_data size)
     | Raise e => Raise e
     end, [GetMessages (FILE_STORE E) mid]).
Proof.
  intros Hm Hmedia.
  apply (get_file_properties_fallback E file_data mid AttributeError); [|done].
  unfold live_properties, mbind, io_bind, await, pure. by rewrite Hm, Hmedia.
Qed.

(** Every [bot.get_messages] call of an exchange names the configured
    chat and the id read from the record: [int()] of [file_id] when that
    is truthy, else of [message_id]. *)
Theorem fetched_message_id E request chat_id mid :
  GetMessages chat_id mid ∈ trace (serve E request) →
  chat_id = FILE_STORE E ∧
  ∃ file_data,
    get_file E (match_info_id request) = Ok (Some file_data) ∧
    py_int (if Py.truthy (Py.get file_data "file_id")
            then Py.get file_data "file_id"
            else Py.get file_data "message_id") = Ok mid.
Proof.
  unfold serve.
  destruct (stream_handler E request) as [r log] eqn:Hh.
  assert (GetMessages chat_id mid ∈ log →
          chat_id = FILE_STORE E ∧
          ∃ file_data,
            get_file E (match_info_id request) = Ok (Some file_data) ∧
            py_int (Py.or (Py.get file_data "file_id")
                          (Py.get file_data "message_id")) = Ok mid) as Hlog.
  { revert Hh. rewrite stream_handler_cases. cbv zeta.
    destruct (get_file E _) as [fd|e0];
      [|intros [= _ <-]; by intros [[=]|[]%elem_of_nil]%elem_of_cons].
    destruct (no_file_data fd) eqn:Hno;
      [intros [= _ <-]; by intros [[=]|[]%elem_of_nil]%elem_of_cons|].
    destruct fd as [fd|]; [|done]. cbn [default from_option id].
    destruct (py_int _) as [mid'|e0] eqn:Hid;
      [|intros [= _ <-]; by intros [[=]|[]%elem_of_nil]%elem_of_cons].
    destruct (get_file_properties E _ mid') as [[p|e0] l] eqn:Hp;
      apply get_file_properties_log in Hp as ->;
      intros [= _ <-];
      intros [[=]|[[= -> ->]|[]%elem_of_nil]%elem_of_cons]%elem_of_cons;
      eauto. }
  destruct r as [[st [| | | | |g] hs]|e]; cbn [trace]; try done.
  intros [Hin|Hin]%elem_of_app; [by apply Hlog|].
  destruct (streaming_invariant E request _ _ g Hh eq_refl)
    as (fd & p & l & (Hget & _ & Hid & _) & _).
  assert (chat_id = FILE_STORE E ∧ mid = msg_id g) as [-> ->].
  { revert Hin. unfold media_streamer.
    destruct (msg g) as [m|].
    - destruct (stream_media E m _ _) as [chunks ending].
      destruct (stream_loop _ _ _ _). cbn [calls app].
      by intros [[=]|[]%elem_of_nil]%elem_of_cons.
    - destruct (get_messages_again E _ _) as [m|e].
      + destruct (stream_media E m _ _) as [chunks ending].
        destruct (stream_loop _ _ _ _). cbn [calls app].
        by intros [[= -> ->]|[[=]|[]%elem_of_nil]%elem_of_cons]%elem_of_cons.
      + cbn [calls]. by intros [[= -> ->]|[]%elem_of_nil]%elem_of_cons. }
  split; [done|]. by exists fd.
Qed.

(** ** The further statements at sample requests *)

Lemma unknown_id_not_found_witness :
  let request := Sample.get "zz" (Some "bytes=abc-def") in
  get_file Sample.unknown "zz" = Ok None ∧
  serve Sample.unknown request =
    {| result := Ok {| status := 404; body := Text "❌ File Not Found";
                       headers := cors_headers |};
       sent := [];
       trace := [GetFile "zz"] |}.
Proof.
  intros request. split; [reflexivity|].
  refine (proj1 (unknown_id_not_found Sample.unknown request None _ _)).
  - reflexivity.
  - left. reflexivity.
Defined.

Lemma store_failure_server_error_witness :
  let request := Sample.get "f1" None in
  isinstance OSError Exception = true ∧
  serve Sample.store_down request =
    {| result := Ok {| status := 500; body := ServerError OSError;
                       headers := cors_headers |};
       sent := [];
       trace := [GetFile "f1"] |}.
Proof.
  intros request. split; [reflexivity|].
  refine (proj1 (store_failure_server_error Sample.store_down request OSError _ _));
    reflexivity.
Defined.

Lemma missing_message_id_witness :
  let request := Sample.get "f1" None in
  result (serve Sample.no_ids request) =
    Ok {| status := 500; body := ServerError TypeError; headers := cors_headers |}.
Proof.
  intros request.
  rewrite (missing_message_id Sample.no_ids request
             {[ "anime_title" := PStr "Episode 1" ]}).
  - reflexivity.
  - reflexivity.
  - vm_compute. discriminate.
  - vm_compute. reflexivity.
  - vm_compute. reflexivity.
Defined.

Lemma handlers_catch_exceptions_witness :
  let E := Sample.world (Some Sample.stored_1000) (Raise CancelledError)
             (Raise CancelledError) ([], None) in
  let request := Sample.get "f1" None in
  stream_handler E request
  = (Raise CancelledError, [GetFile "f1"; GetMessages (-1001) 7]) ∧
  isinstance CancelledError Exception = false.
Proof.
  intros E request.
  assert (stream_handler E request
          = (Raise CancelledError, [GetFile "f1"; GetMessages (-1001) 7])) as Hh
    by (vm_compute; reflexivity).
  split; [exact Hh|].
  exact (proj1 (proj1 (handlers_catch_exceptions E request CancelledError _) Hh)).
Defined.

Lemma streaming_invariant_witness :
  let request := Sample.get "f1" (Some "bytes=500-599") in
  let resp := streaming request Sample.props_1000 7 500 599 in
  stream_handler Sample.live_1000 request
  = (Ok resp, [GetFile "f1"; GetMessages (-1001) 7]) ∧
  headers resp !! "Content-Length" ≫= PyStr.to_Z = Some 100.
Proof.
  intros request resp.
  assert (stream_handler Sample.live_1000 request
          = (Ok resp, [GetFile "f1"; GetMessages (-1001) 7])) as Hh
    by (vm_compute; reflexivity).
  split; [exact Hh|].
  destruct (streaming_invariant Sample.live_1000 request resp _ _ Hh eq_refl)
    as (fd & p & l & _ & _ & _ & _ & _ & _ & _ & Hlen).
  exact Hlen.
Defined.

Lemma streaming_trace_witness :
  let request := Sample.get "f1" (Some "bytes=500-599") in
  resolved Sample.live_1000 request Sample.stored_1000 7 Sample.props_1000
           [GetMessages (-1001) 7] ∧
  trace (serve Sample.live_1000 request)
  = [GetFile "f1"; GetMessages (-1001) 7; StreamMedia 500 100].
Proof.
  intros request.
  assert (resolved Sample.live_1000 request Sample.stored_1000 7 Sample.props_1000
            [GetMessages (-1001) 7]) as Hres
    by (unfold resolved; repeat split; vm_compute; reflexivity).
  split; [exact Hres|].
  rewrite (streaming_trace _ _ _ _ _ _ 500 599 Hres); reflexivity.
Defined.

Lemma stream_media_only_on_success_witness :
  let request := Sample.get "f1" (Some "bytes=500-599") in
  StreamMedia 500 100 ∈ trace (serve Sample.live_1000 request) ∧
  ∃ resp, result (serve Sample.live_1000 request) = Ok resp ∧
          status resp ∈ [200; 206].
Proof.
  intros request.
  assert (StreamMedia 500 100 ∈ trace (serve Sample.live_1000 request)) as Hin.
  { apply list_elem_of_In. vm_compute. tauto. }
  split; [exact Hin|].
  destruct (stream_media_only_on_success _ _ _ _ Hin)
    as (resp & g & Hr & Hst & _).
  exists resp. split; [exact Hr|exact Hst].
Defined.

Lemma refetch_failure_empty_body_witness :
  let request := Sample.get "f1" None in
  resolved Sample.offline_1000 request Sample.stored_1000 7
           (fallback Sample.stored_1000 1000) [GetMessages (-1001) 7] ∧
  get_messages_again Sample.offline_1000 (-1001) 7 = Raise FloodWait ∧
  sent (serve Sample.offline_1000 request) = [].
Proof.
  intros request.
  assert (resolved Sample.offline_1000 request Sample.stored_1000 7
            (fallback Sample.stored_1000 1000) [GetMessages (-1001) 7]) as Hres
    by (unfold resolved; repeat split; vm_compute; reflexivity).
  split; [exact Hres|]. split; [reflexivity|].
  rewrite (proj1 (refetch_failure_empty_body _ _ _ _ _ _ 0 999 FloodWait Hres
                    eq_refl eq_refl eq_refl eq_refl)).
  reflexivity.
Defined.

Lemma budget_bounds_witness :
  stream_media Sample.live_1000 (Sample.video 1000) 0 100
  = ([Sample.zeros 60; Sample.zeros 60], None) ∧
  ∃ ys c, yielded (media_streamer Sample.live_1000 Sample.first_100) = ys ++ [c] ∧
          total_bytes ys < 100 ≤ total_bytes ys + len c.
Proof.
  split; [reflexivity|].
  refine (proj2 (proj2 (proj2 (budget_bounds Sample.live_1000 Sample.first_100
            (Sample.video 1000) [Sample.zeros 60; Sample.zeros 60] None _ _ _)) _)).
  - left. reflexivity.
  - reflexivity.
  - reflexivity.
  - vm_compute. discriminate.
Defined.

Lemma exact_on_chunk_boundary_witness :
  total_bytes [Sample.zeros 60; Sample.zeros 60] = 120 ∧
  total_bytes (yielded (media_streamer Sample.live_1000 Sample.first_120)) = 120.
Proof.
  split; [reflexivity|].
  refine (proj1 (exact_on_chunk_boundary Sample.live_1000 Sample.first_120
            (Sample.video 1000) [Sample.zeros 60; Sample.zeros 60] None
            [Sample.zeros 60; Sample.zeros 60] _ _ _ _ _)).
  - left. reflexivity.
  - reflexivity.
  - reflexivity.
  - exists []. reflexivity.
  - reflexivity.
Defined.

Lemma cancellation_propagates_witness :
  isinstance CancelledError Exception = false ∧
  raised (media_streamer Sample.cancelled_after_one Sample.first_100)
  = Some CancelledError.
Proof.
  split; [reflexivity|].
  refine (proj2 (cancellation_propagates Sample.cancelled_after_one Sample.first_100
            (Sample.video 1000) [Sample.zeros 40] CancelledError _ _ _ _)).
  - left. reflexivity.
  - reflexivity.
  - reflexivity.
  - reflexivity.
Defined.

Lemma parsed_range_nonnegative_witness :
  range_handling (Some "bytes=5-7") 1000 = Ok (5, 7) ∧
  not_satisfiable 5 7 1000 = (7 >=? 1000) || (7 <? 5).
Proof.
  assert (range_handling (Some "bytes=5-7") 1000 = Ok (5, 7)) as Hr
    by (vm_compute; reflexivity).
  split; [exact Hr|].
  exact (proj2 (proj2 (parsed_range_nonnegative _ _ _ _ Hr))).
Defined.

Lemma range_unit_optional_witness :
  range_handling (Some "500-599") 1000 = Ok (500, 599).
Proof.
  refine (proj1 (range_unit_optional 500 599 1000 _ _)); vm_compute; discriminate.
Defined.

Lemma whole_file_range_witness :
  let r1 := Sample.get "f1" (Some "bytes=0-") in
  let r2 := Sample.get "f1" None in
  resolved Sample.live_1000 r1 Sample.stored_1000 7 Sample.props_1000
           [GetMessages (-1001) 7] ∧
  ∃ resp1 resp2 l1 l2,
    stream_handler Sample.live_1000 r1 = (Ok resp1, l1) ∧
    stream_handler Sample.live_1000 r2 = (Ok resp2, l2) ∧
    status resp1 = 206 ∧ status resp2 = 200 ∧
    headers resp1 = headers resp2 ∧ body resp1 = body resp2.
Proof.
  intros r1 r2.
  assert (resolved Sample.live_1000 r1 Sample.stored_1000 7 Sample.props_1000
            [GetMessages (-1001) 7]) as Hres
    by (unfold resolved; repeat split; vm_compute; reflexivity).
  split; [exact Hres|].
  exact (whole_file_range Sample.live_1000 r1 r2 _ _ _ _ Hres
           eq_refl eq_refl eq_refl eq_refl eq_refl).
Defined.

Lemma disposition_by_route_witness :
  let request := Sample.get "f1" None in
  resolved Sample.live_1000 request Sample.stored_1000 7 Sample.props_1000
           [GetMessages (-1001) 7] ∧
  ∃ resp,
    (stream_handler Sample.live_1000 request).1 = Ok resp ∧
    headers resp !! "Content-Disposition"
    = Some ("inline; filename=" +:+ dquote +:+ "ep01.mkv" +:+ dquote).
Proof.
  intros request.
  assert (resolved Sample.live_1000 request Sample.stored_1000 7 Sample.props_1000
            [GetMessages (-1001) 7]) as Hres
    by (unfold resolved; repeat split; vm_compute; reflexivity).
  split; [exact Hres|].
  destruct (disposition_by_route Sample.live_1000 request _ _ _ _ 0 999 Hres
              eq_refl eq_refl) as (resp & Hh & _ & Hinline).
  { vm_compute. intros H. apply list_elem_of_In in H. simpl in H.
    destruct H as [H|[H|[]]]; discriminate H. }
  exists resp. split; [by rewrite Hh|].
  apply Hinline. left. reflexivity.
Defined.

Lemma api_links_witness :
  let request := Sample.get "f1" None in
  ∃ j,
    (api_handler Sample.live_1000 request).1
    = Ok {| status := 200; body := Json j; headers := cors_headers |} ∧
    j !! "stream_url" = Some (PStr "https://example.org/watch/f1").
Proof.
  intros request.
  destruct (api_links Sample.live_1000 request Sample.stored_1000)
    as (_ & _ & j & Hh & _ & Hurl & _).
  - reflexivity.
  - vm_compute. discriminate.
  - exists j. split; [by rewrite Hh|]. exact Hurl.
Defined.

Lemma content_type_default_witness :
  get_file_properties Sample.offline_1000 Sample.stored_1000 7
  = (Ok (fallback Sample.stored_1000 1000), [GetMessages (-1001) 7]) ∧
  p_mime_type (fallback Sample.stored_1000 1000) = PStr "video/mp4".
Proof.
  assert (get_file_properties Sample.offline_1000 Sample.stored_1000 7
          = (Ok (fallback Sample.stored_1000 1000), [GetMessages (-1001) 7])) as Hp
    by (vm_compute; reflexivity).
  split; [exact Hp|].
  exact (proj2 (content_type_default _ _ _ _ _ Hp) eq_refl).
Defined.

Lemma message_without_media_falls_back_witness :
  media {| message_id := 7; media := None |} = None ∧
  get_file_properties Sample.deleted_message Sample.stored_1000 7
  = (Ok (fallback Sample.stored_1000 1000), [GetMessages (-1001) 7]).
Proof.
  split; [reflexivity|].
  rewrite (message_without_media_falls_back Sample.deleted_message
             Sample.stored_1000 7 {| message_id := 7; media := None |}
             eq_refl eq_refl).
  reflexivity.
Defined.

Lemma fetched_message_id_witness :
  let request := Sample.get "f1" None in
  GetMessages (-1001) 7 ∈ trace (serve Sample.offline_1000 request) ∧
  ∃ file_data,
    get_file Sample.offline_1000 "f1" = Ok (Some file_data) ∧
    py_int (if Py.truthy (Py.get file_data "file_id")
            then Py.get file_data "file_id"
            else Py.get file_data "message_id") = Ok 7.
Proof.
  intros request.
  assert (GetMessages (-1001) 7 ∈ trace (serve Sample.offline_1000 request)) as Hin.
  { apply list_elem_of_In. vm_compute. tauto. }
  split; [exact Hin|].
  exact (proj2 (fetched_message_id _ _ _ _ Hin)).
Defined.

(** ** The header map of the responses *)

Section HeaderMap.
Implicit Types (r resp : response).

Lemma header_map_extends r : headers r ⊆ header_map r.
Proof.
  unfold header_map.
  destruct (body_content_type (body r)) as [ct|]; [|done].
  destruct (headers r !! "Content-Type") eqn:Hct; [done|].
  by apply insert_subseteq.
Qed.

(** Whatever the [headers=] dictionary contains of the CORS table, the
    header map carries with these values. *)
Lemma header_map_cors r :
  cors_headers ⊆ headers r →
  header_map r !! "Access-Control-Allow-Origin" = Some "*"%string ∧
  header_map r !! "Access-Control-Allow-Methods"
    = Some "GET, POST, OPTIONS, HEAD"%string ∧
  header_map r !! "Access-Control-Allow-Headers"
    = Some "Content-Type, Range, User-Agent, X-Requested-With"%string ∧
  header_map r !! "Access-Control-Expose-Headers"
    = Some "Content-Length, Content-Range, Content-Disposition"%string ∧
  header_map r !! "Access-Control-Max-Age" = Some "86400"%string.
Proof.
  intros Hsub.
  assert (cors_headers ⊆ header_map r) as H
    by (etrans; [exact Hsub|apply header_map_extends]).
  repeat split; (eapply lookup_weaken; [|exact H]); reflexivity.
Qed.

Lemma header_map_not_satisfiable file_size :
  header_map (range_not_satisfiable file_size) =
    <[ "Content-Type" := "text/plain; charset=utf-8" ]>
      {[ "Content-Range" := "bytes */" +:+ PyStr.of_Z file_size ]}.
Proof. reflexivity. Qed.

Lemma status_416_inv E request resp log :
  stream_handler E request = (Ok resp, log) →
  status resp = 416 →
  ∃ file_data msg_id p log',
    resolved E request file_data msg_id p log' ∧
    resp = range_not_satisfiable (p_file_size p).
Proof.
  rewrite stream_handler_cases. cbv zeta.
  destruct (get_file E _) as [fd|e0] eqn:Hget.
  2:{ destruct (isinstance e0 Exception); [|done]. by intros [= <- _]. }
  destruct (no_file_data fd) eqn:Hno; [by intros [= <- _]|].
  destruct fd as [fd|]; [|done]. cbn [default from_option id].
  destruct (py_int _) as [mid|e0] eqn:Hid; [|by intros [= <- _]].
  destruct (get_file_properties E fd mid) as [[p|e0] l] eqn:Hp.
  2:{ destruct (isinstance e0 Exception); [|done]. by intros [= <- _]. }
  destruct (range_handling _ _) as [[f u]|e0] eqn:Hr; [|by intros [= <- _]].
  destruct (not_satisfiable f u _) eqn:Hns.
  - intros [= <- _] _. by exists fd, mid, p, l.
  - intros [= <- _]. unfold streaming. cbn [status]. by destruct (has_range _).
Qed.

End HeaderMap.

(** C10, as stated, fails: the header map of a 416 response is not the
    single header [Content-Range]; the response is built with a string
    body, for which the constructor adds a [Content-Type]. *)
Lemma header_map_of_416 :
  let request := Sample.get "f1" (Some "bytes=999-1500") in
  ∃ resp log,
    stream_handler Sample.live_1000 request = (Ok resp, log) ∧
    status resp = 416 ∧
    header_map resp !! "Content-Type" = Some "text/plain; charset=utf-8"%string ∧
    header_map resp ≠ {[ "Content-Range" := "bytes */1000"%string ]}.
Proof.
  intros request.
  exists (range_not_satisfiable 1000), [GetFile "f1"; GetMessages (-1001) 7].
  split; [by vm_compute|]. split; [done|]. split; [done|].
  intros H. apply (f_equal (λ m : gmap string string, m !! "Content-Type")) in H.
  by vm_compute in H.
Qed.

(** C10, amended. The header map of a 416 response of the stream
    handler consists of [Content-Range: bytes */file_size] and of the
    [Content-Type: text/plain; charset=utf-8] of its text body, and of
    nothing else: it carries none of the five CORS headers.  Every other
    response of the stream handler (200, 206, 404, 500) and every
    response of the OPTIONS, API and root handlers carries the five CORS
    headers, with the values of [cors_headers()]. *)
Theorem cors_absent_only_on_416 E request :
  (∀ resp log, stream_handler E request = (Ok resp, log) →
     (status resp = 416 →
        (∃ file_data msg_id p log',
           resolved E request file_data msg_id p log' ∧
           header_map resp =
             <[ "Content-Type" := "text/plain; charset=utf-8" ]>
               {[ "Content-Range" := "bytes */" +:+ PyStr.of_Z (p_file_size p) ]}) ∧
        ∀ k, k ∈ ["Access-Control-Allow-Origin"; "Access-Control-Allow-Methods";
                  "Access-Control-Allow-Headers"; "Access-Control-Expose-Headers";
                  "Access-Control-Max-Age"] →
             header_map resp !! k = None) ∧
     (status resp ≠ 416 →
        status resp ∈ [200; 206; 404; 500] ∧
        header_map resp !! "Access-Control-Allow-Origin" = Some "*"%string ∧
        header_map resp !! "Access-Control-Allow-Methods"
          = Some "GET, POST, OPTIONS, HEAD"%string ∧
        header_map resp !! "Access-Control-Allow-Headers"
          = Some "Content-Type, Range, User-Agent, X-Requested-With"%string ∧
        header_map resp !! "Access-Control-Expose-Headers"
          = Some "Content-Length, Content-Range, Content-Disposition"%string ∧
        header_map resp !! "Access-Control-Max-Age" = Some "86400"%string)) ∧
  (∀ resp log, stream_options_handler request = (Ok resp, log) →
     status resp = 200 ∧
     header_map resp !! "Access-Control-Allow-Origin" = Some "*"%string ∧
     header_map resp !! "Access-Control-Allow-Methods"
       = Some "GET, POST, OPTIONS, HEAD"%string ∧
     header_map resp !! "Access-Control-Allow-Headers"
       = Some "Content-Type, Range, User-Agent, X-Requested-With"%string ∧
     header_map resp !! "Access-Control-Expose-Headers"
       = Some "Content-Length, Content-Range, Content-Disposition"%string ∧
     header_map resp !! "Access-Control-Max-Age" = Some "86400"%string) ∧
  (∀ resp log, api_handler E request = (Ok resp, log) →
     status resp ∈ [200; 404; 500] ∧
     header_map resp !! "Access-Control-Allow-Origin" = Some "*"%string ∧
     header_map resp !! "Access-Control-Allow-Methods"
       = Some "GET, POST, OPTIONS, HEAD"%string ∧
     header_map resp !! "Access-Control-Allow-Headers"
       = Some "Content-Type, Range, User-Agent, X-Requested-With"%string ∧
     header_map resp !! "Access-Control-Expose-Headers"
       = Some "Content-Length, Content-Range, Content-Disposition"%string ∧
     header_map resp !! "Access-Control-Max-Age" = Some "86400"%string) ∧
  (∀ resp log, root_route_handler request = (Ok resp, log) →
     status resp = 200 ∧
     header_map resp !! "Access-Control-Allow-Origin" = Some "*"%string ∧
     header_map resp !! "Access-Control-Allow-Methods"
       = Some "GET, POST, OPTIONS, HEAD"%string ∧
     header_map resp !! "Access-Control-Allow-Headers"
       = Some "Content-Type, Range, User-Agent, X-Requested-With"%string ∧
     header_map resp !! "Access-Control-Expose-Headers"
       = Some "Content-Length, Content-Range, Content-Disposition"%string ∧
     header_map resp !! "Access-Control-Max-Age" = Some "86400"%string).
Proof.
  destruct (cors_except_on_416 E request) as (Hstream & Hopt & Hapi & Hroot).
  split; [|split; [|split]].
  - intros resp log Hh. destruct (Hstream resp log Hh) as [_ Hother]. split.
    + intros Hst.
      destruct (status_416_inv E request resp log Hh Hst)
        as (fd & mid & p & l & Hres & ->).
      rewrite header_map_not_satisfiable. split; [by exists fd, mid, p, l|].
      intros k Hk.
      repeat (apply elem_of_cons in Hk as [->|Hk]; [done|]).
      by apply elem_of_nil in Hk.
    + intros Hst. destruct (Hother Hst) as [Hin Hsub].
      split; [done|]. by apply header_map_cors.
  - intros resp log Hh. destruct (Hopt resp log Hh) as [Hst Hsub].
    split; [done|]. by apply header_map_cors.
  - intros resp log Hh. destruct (Hapi resp log Hh) as [Hst Hsub].
    split; [done|]. by apply header_map_cors.
  - intros resp log Hh. destruct (Hroot resp log Hh) as [Hst Hsub].
    split; [done|]. by apply header_map_cors.
Qed.

Lemma cors_absent_only_on_416_witness :
  let request := Sample.get "f1" (Some "bytes=999-1500") in
  ∃ resp log,
    stream_handler Sample.live_1000 request = (Ok resp, log) ∧
    status resp = 416 ∧
    header_map resp !! "Access-Control-Allow-Origin" = None.
Proof.
  intros request.
  assert (stream_handler Sample.live_1000 request
          = (Ok (range_not_satisfiable 1000), [GetFile "f1"; GetMessages (-1001) 7]))
    as Hh by (vm_compute; reflexivity).
  exists (range_not_satisfiable 1000), [GetFile "f1"; GetMessages (-1001) 7].
  split; [exact Hh|]. split; [reflexivity|].
  destruct (proj1 (cors_absent_only_on_416 Sample.live_1000 request) _ _ Hh)
    as [H416 _].
  destruct (H416 eq_refl) as [_ Hnone]. apply Hnone.
  apply list_elem_of_In. simpl. tauto.
Defined.
